(** * The frame timer of src/i_time.cpp

    A shallow embedding of the timer: the three file-level [uint64_t]
    variables become fields of a record, the steady clock becomes an oracle
    giving the value of each successive read, and every function of the file
    becomes a function on that record.  Fixed-width arithmetic is [Z] with
    the wrap-around written out. *)

From Stdlib Require Import ZArith List Sorted Lia Bool QArith SpecFloat.
Import ListNotations.

Local Open Scope Z_scope.

(** ** Machine integers *)

(** [uint64_t]: values modulo 2^64. *)
Definition to_uint64 (z : Z) : Z := z mod 2 ^ 64.

(** [uint32_t] / [unsigned int]: values modulo 2^32. *)
Definition to_uint32 (z : Z) : Z := z mod 2 ^ 32.

(** [int]: 32-bit two's complement.  A narrowing [static_cast<int>] is
    modular; signed overflow of [+] is undefined in C++ and is modelled by
    the same wrap-around, which is what the hardware does. *)
Definition to_int (z : Z) : Z := (z + 2 ^ 31) mod 2 ^ 32 - 2 ^ 31.

Definition INT_MAX : Z := 2 ^ 31 - 1.

(** Turns the powers of two into numerals, for [lia]. *)
Ltac zconst :=
  change (2 ^ 64) with 18446744073709551616 in *;
  change (2 ^ 32) with 4294967296 in *;
  change (2 ^ 31) with 2147483648 in *;
  change INT_MAX with 2147483647 in *.

(** ** The clock oracle and the state *)

(** A clock given by the list of its successive readings; once the list is
    exhausted the last reading repeats. *)
Fixpoint clock_of_list (l : list Z) (n : nat) : Z :=
  match l with
  | [] => 0
  | t :: l' =>
      match n, l' with
      | O, _ => t
      | S _, [] => t
      | S n', _ :: _ => clock_of_list l' n'
      end
  end.

(** The value of TICRATE in Doom's doomdef.h (35 tics per second), which is
    also the rate of the specification's worked example. *)
Definition TICRATE_doom : Z := 35.

(** The file-level variables, together with what the environment needs:
    [reads] counts the calls of [GetClockTimeNS] made so far, [sleeps] logs
    the argument (in milliseconds) of every [sleep_for], latest first. *)
Record world : Type := mkWorld {
  FirstFrameStartTime : Z;
  CurrentFrameStartTime : Z;
  FreezeTime : Z;
  reads : nat;
  sleeps : list Z
}.

(** All three variables have static storage: zero at start-up. *)
Definition initial : world := mkWorld 0 0 0 0 [].

Definition set_First (v : Z) (w : world) : world :=
  mkWorld v (CurrentFrameStartTime w) (FreezeTime w) (reads w) (sleeps w).

Definition set_Current (v : Z) (w : world) : world :=
  mkWorld (FirstFrameStartTime w) v (FreezeTime w) (reads w) (sleeps w).

Definition set_Freeze (v : Z) (w : world) : world :=
  mkWorld (FirstFrameStartTime w) (CurrentFrameStartTime w) v (reads w) (sleeps w).

(** [std::this_thread::sleep_for(std::chrono::milliseconds(ms))]. *)
Definition sleep_for (ms : Z) (w : world) : world :=
  mkWorld (FirstFrameStartTime w) (CurrentFrameStartTime w) (FreezeTime w)
          (reads w) (ms :: sleeps w).

(** The three timer variables of a world. *)
Definition timer_vars (w : world) : Z * Z * Z :=
  (FirstFrameStartTime w, CurrentFrameStartTime w, FreezeTime w).

(** The result of [I_GetTimeFrac]: the two integer operands of the final
    floating-point division, and what was stored through the pointer. *)
Record timefrac : Type := mkTimefrac {
  frac_num : Z;
  frac_den : Z;
  frac_ms : option Z
}.

(** The quotient as an exact rational.  Integers below 2^53 convert to
    [double] exactly and the division rounds this quotient to the nearest
    [double].  (A zero denominator, where C++ gives an infinity or a NaN,
    makes [Qdiv] return 0; the bounds below come with a positive
    denominator.) *)
Definition frac_exact (r : timefrac) : Q :=
  (inject_Z (frac_num r) / inject_Z (frac_den r))%Q.

(** Conversion of an unsigned integer to [double], round to nearest even. *)
Definition double_of_Z (z : Z) : spec_float := binary_normalize 53 1024 z 0 false.

(** The quotient as the IEEE 754 binary64 division computes it. *)
Definition frac_double (r : timefrac) : spec_float :=
  SFdiv 53 1024 (double_of_Z (frac_num r)) (double_of_Z (frac_den r)).

Definition double_one : spec_float := S754_finite false 4503599627370496 (-52).

Section Timer.

(** TICRATE comes from doomdef.h, which is not part of the file: an [int]
    constant, the number of tics per second. *)
Variable TICRATE : Z.

(** [clock n] is what the [n]-th call of [steady_clock::now()] returns, in
    nanoseconds since the clock's epoch. *)
Variable clock : nat -> Z.

(** *** Unit conversions *)

Definition GetClockTimeNS (w : world) : Z * world :=
  (to_uint64 (clock (reads w)),
   mkWorld (FirstFrameStartTime w) (CurrentFrameStartTime w) (FreezeTime w)
           (S (reads w)) (sleeps w)).

Definition MSToNS (ms : Z) : Z := to_uint64 (to_uint32 ms * 1000000).

Definition NSToMS (ns : Z) : Z := to_uint32 (ns / 1000000).

Definition NSToTic (ns : Z) : Z :=
  to_int (to_uint64 (ns * to_uint64 TICRATE) / 1000000000).

Definition TicToNS (tic : Z) : Z :=
  to_uint64 (to_uint64 tic * 1000000000) / to_uint64 TICRATE.

(** *** The operations *)

Definition I_SetFrameTime (w : world) : world :=
  if FreezeTime w =? 0 then
    let (now, w1) := GetClockTimeNS w in
    let w2 := set_Current now w1 in
    if FirstFrameStartTime w2 =? 0
    then set_First (CurrentFrameStartTime w2) w2
    else w2
  else w.

(** [1000 * count / 70] is [int] arithmetic: the quotient truncates. *)
Definition I_WaitVBL (count : Z) (w : world) : world :=
  I_SetFrameTime (sleep_for (Z.quot (to_int (1000 * count)) 70) w).

Definition I_GetTime (w : world) : Z :=
  to_int (NSToTic (to_uint64 (CurrentFrameStartTime w - FirstFrameStartTime w)) + 1).

(** The body of the [while] loop of [I_WaitForTic], entered with the tic
    [time] just read. *)
Definition wait_body (prevtic time : Z) (w : world) : world :=
  let sleepTime := to_int (prevtic - time) in
  I_SetFrameTime (if 2 <? sleepTime then sleep_for (sleepTime - 2) w else w).

(** The loop needs fuel: with a frozen or stuck clock it does not end. *)
Fixpoint I_WaitForTic (fuel : nat) (prevtic : Z) (w : world) : option (Z * world) :=
  match fuel with
  | O => None
  | S fuel' =>
      let time := I_GetTime w in
      if time <=? prevtic
      then I_WaitForTic fuel' prevtic (wait_body prevtic time w)
      else Some (time, w)
  end.

Definition I_NSTime (w : world) : Z * world :=
  if FreezeTime w =? 0 then
    (to_uint64 (CurrentFrameStartTime w - FirstFrameStartTime w), w)
  else if FirstFrameStartTime w =? 0 then
    let (now, w1) := GetClockTimeNS w in
    (0, set_First now w1)
  else
    let (now, w1) := GetClockTimeNS w in
    (to_uint64 (now - FirstFrameStartTime w1), w1).

Definition I_FPSTimeNS (w : world) : Z * world :=
  if FreezeTime w =? 0 then (CurrentFrameStartTime w, w)
  else GetClockTimeNS w.

Definition I_MSTime (w : world) : Z * world :=
  let (ns, w1) := I_NSTime w in (NSToMS ns, w1).

Definition I_FPSTime (w : world) : Z * world :=
  let (ns, w1) := I_FPSTimeNS w in (NSToMS ns, w1).

(** [ms] tells whether the pointer argument is non-null. *)
Definition I_GetTimeFrac (ms : bool) (w : world) : timefrac :=
  let currentTic :=
    NSToTic (to_uint64 (CurrentFrameStartTime w - FirstFrameStartTime w)) in
  let ticStartTime := to_uint64 (FirstFrameStartTime w + TicToNS currentTic) in
  let ticNextTime :=
    to_uint64 (FirstFrameStartTime w + TicToNS (to_int (currentTic + 1))) in
  mkTimefrac
    (to_uint64 (CurrentFrameStartTime w - ticStartTime))
    (to_uint64 (ticNextTime - ticStartTime))
    (if ms then Some (to_uint32 (to_int (currentTic + 1))) else None).

Definition I_FreezeTime (frozen : bool) (w : world) : world :=
  if frozen then
    let (now, w1) := GetClockTimeNS w in
    set_Freeze now w1
  else
    let (now, w1) := GetClockTimeNS w in
    let w2 := set_First (to_uint64 (FirstFrameStartTime w1
                                    + to_uint64 (now - FreezeTime w1))) w1 in
    I_SetFrameTime (set_Freeze 0 w2).

(** *** Runs *)

(** The calls a client can make. *)
Inductive op : Type :=
| SetFrameTime
| WaitVBL (count : Z)
| WaitForTic (prevtic : Z)
| NSTime
| FPSTimeNS
| MSTime
| FPSTime
| GetTime
| GetTimeFrac (ms : bool)
| Freeze (frozen : bool).

(** [step w o w'] : the call [o] made in [w] returns in [w']. *)
Inductive step (w : world) : op -> world -> Prop :=
| step_SetFrameTime : step w SetFrameTime (I_SetFrameTime w)
| step_WaitVBL count : step w (WaitVBL count) (I_WaitVBL count w)
| step_WaitForTic prevtic fuel t w' :
    I_WaitForTic fuel prevtic w = Some (t, w') ->
    step w (WaitForTic prevtic) w'
| step_NSTime : step w NSTime (snd (I_NSTime w))
| step_FPSTimeNS : step w FPSTimeNS (snd (I_FPSTimeNS w))
| step_MSTime : step w MSTime (snd (I_MSTime w))
| step_FPSTime : step w FPSTime (snd (I_FPSTime w))
| step_GetTime : step w GetTime w
| step_GetTimeFrac ms : step w (GetTimeFrac ms) w
| step_Freeze frozen : step w (Freeze frozen) (I_FreezeTime frozen w).

(** [n] successive frame snapshots. *)
Fixpoint snapshots (n : nat) (w : world) : world :=
  match n with
  | O => w
  | S n' => snapshots n' (I_SetFrameTime w)
  end.

(** The tics [I_GetTime] returns after each of [n] successive snapshots. *)
Fixpoint tics_after_snapshots (n : nat) (w : world) : list Z :=
  match n with
  | O => []
  | S n' =>
      let w1 := I_SetFrameTime w in
      I_GetTime w1 :: tics_after_snapshots n' w1
  end.


(** *** Predicates on clocks and states *)

(** The elapsed times for which neither the 64-bit product nor the 32-bit
    tic (with its [+ 1]) overflows. *)
Definition tic_in_range (ns : Z) : Prop :=
  0 <= ns /\ ns * TICRATE < INT_MAX * 1000000000.

(** A steady clock never goes back, and its readings fit [uint64_t]. *)
Definition clock_monotone : Prop :=
  forall i j : nat, (i <= j)%nat -> clock i <= clock j.

Definition clock_in_range : Prop :=
  forall i : nat, 0 <= clock i < 2 ^ 64.

(** Both frame times have been set. *)
Definition both_set (w : world) : Prop :=
  FirstFrameStartTime w <> 0 /\ CurrentFrameStartTime w <> 0.

(** The invariant of the data model. *)
Definition frames_ordered (w : world) : Prop :=
  FirstFrameStartTime w <= CurrentFrameStartTime w.

(** The stored times are past readings of the clock: none is later than the
    next reading, and a freeze was taken after the frame it froze. *)
Definition timestamps_past (w : world) : Prop :=
  0 <= FirstFrameStartTime w /\
  CurrentFrameStartTime w <= clock (reads w) /\
  0 <= FreezeTime w <= clock (reads w) /\
  (FreezeTime w <> 0 -> CurrentFrameStartTime w <= FreezeTime w).

(** What a run of snapshots keeps true: the frames are ordered, the current
    frame is a past reading, and the first frame is unset only before any
    frame was taken. *)
Definition frames_consistent (w : world) : Prop :=
  0 <= FirstFrameStartTime w <= CurrentFrameStartTime w /\
  CurrentFrameStartTime w <= clock (reads w) /\
  (FirstFrameStartTime w = 0 -> CurrentFrameStartTime w = 0).

(** The next [n] readings of the clock are within [tic_in_range] of the
    first frame. *)
Definition elapsed_in_range (n : nat) (w : world) : Prop :=
  forall i : nat, (reads w <= i < reads w + n)%nat ->
  tic_in_range (clock i - FirstFrameStartTime w).

(** Both frames set, in order, and consistent with the clock. *)
Definition frames_ok (w : world) : Prop :=
  both_set w /\ frames_ordered w /\ timestamps_past w.

(** Every call except an unfreeze that no freeze precedes. *)
Definition matched (o : op) (w : world) : Prop :=
  match o with
  | Freeze false => FreezeTime w <> 0
  | _ => True
  end.

(** Two worlds that differ at most in their sleep logs. *)
Definition same_timer (w1 w2 : world) : Prop :=
  FirstFrameStartTime w1 = FirstFrameStartTime w2 /\
  CurrentFrameStartTime w1 = CurrentFrameStartTime w2 /\
  FreezeTime w1 = FreezeTime w2 /\
  reads w1 = reads w2.

(** The calls that only ask for a time. *)
Definition is_query (o : op) : bool :=
  match o with
  | NSTime | FPSTimeNS | MSTime | FPSTime | GetTime | GetTimeFrac _ => true
  | _ => false
  end.

(** A sequence of calls, one after the other. *)
Inductive steps : world -> list op -> world -> Prop :=
| steps_nil w : steps w [] w
| steps_cons w o w1 os w2 :
    step w o w1 -> steps w1 os w2 -> steps w (o :: os) w2.

(** ** Arithmetic of the machine integers *)

Lemma to_uint64_small (z : Z) : 0 <= z < 2 ^ 64 -> to_uint64 z = z.
Proof. intros H. unfold to_uint64. now apply Z.mod_small. Qed.

Lemma to_uint64_range (z : Z) : 0 <= to_uint64 z < 2 ^ 64.
Proof. unfold to_uint64. apply Z.mod_pos_bound. zconst. lia. Qed.

Lemma to_uint32_range (z : Z) : 0 <= to_uint32 z < 2 ^ 32.
Proof. unfold to_uint32. apply Z.mod_pos_bound. zconst. lia. Qed.

Lemma to_uint32_small (z : Z) : 0 <= z < 2 ^ 32 -> to_uint32 z = z.
Proof. intros H. unfold to_uint32. now apply Z.mod_small. Qed.

Lemma to_int_small (z : Z) : - 2 ^ 31 <= z < 2 ^ 31 -> to_int z = z.
Proof.
  intros H. unfold to_int. rewrite Z.mod_small; zconst; lia.
Qed.

Lemma to_uint64_sub_r (a b : Z) : to_uint64 (a - to_uint64 b) = to_uint64 (a - b).
Proof. unfold to_uint64. apply Zminus_mod_idemp_r. Qed.

Lemma to_uint64_sub_l (a b : Z) : to_uint64 (to_uint64 a - b) = to_uint64 (a - b).
Proof. unfold to_uint64. apply Zminus_mod_idemp_l. Qed.

(** ** The tic of an elapsed time *)

Lemma NSToTic_exact (ns : Z) :
  0 < TICRATE < 2 ^ 64 -> tic_in_range ns ->
  NSToTic ns = ns * TICRATE / 1000000000 /\ 0 <= NSToTic ns < INT_MAX.
Proof.
  intros HT [H0 Hr]. unfold NSToTic.
  rewrite (to_uint64_small TICRATE) by lia.
  assert (Hp : 0 <= ns * TICRATE) by nia.
  rewrite (to_uint64_small (ns * TICRATE)) by (zconst; lia).
  assert (Hq : 0 <= ns * TICRATE / 1000000000 < INT_MAX).
  { split.
    - apply Z.div_pos; lia.
    - apply Z.div_lt_upper_bound; lia. }
  rewrite to_int_small by (zconst; lia).
  split; [reflexivity | exact Hq].
Qed.

Lemma tic_in_range_le (a b : Z) :
  0 < TICRATE -> 0 <= a <= b -> tic_in_range b -> tic_in_range a.
Proof. intros HT Hab [_ Hb]. split; [lia | nia]. Qed.

Lemma NSToTic_mono (a b : Z) :
  0 < TICRATE < 2 ^ 64 -> 0 <= a <= b -> tic_in_range b ->
  NSToTic a <= NSToTic b.
Proof.
  intros HT Hab Hb.
  destruct (NSToTic_exact b HT Hb) as [-> _].
  destruct (NSToTic_exact a HT (tic_in_range_le a b (proj1 HT) Hab Hb)) as [-> _].
  apply Z.div_le_mono; [lia | nia].
Qed.

Lemma I_GetTime_exact (w : world) :
  0 < TICRATE < 2 ^ 64 ->
  0 <= FirstFrameStartTime w <= CurrentFrameStartTime w ->
  CurrentFrameStartTime w < 2 ^ 64 ->
  tic_in_range (CurrentFrameStartTime w - FirstFrameStartTime w) ->
  I_GetTime w
  = (CurrentFrameStartTime w - FirstFrameStartTime w) * TICRATE / 1000000000 + 1.
Proof.
  intros HT HFC HC Hr. unfold I_GetTime.
  rewrite to_uint64_small by (zconst; lia).
  destruct (NSToTic_exact _ HT Hr) as [E Hb].
  rewrite to_int_small by (zconst; lia).
  now rewrite E.
Qed.

Lemma I_GetTime_zero_elapsed (w : world) :
  CurrentFrameStartTime w = FirstFrameStartTime w -> I_GetTime w = 1.
Proof.
  intros E. unfold I_GetTime, NSToTic. rewrite E, Z.sub_diag. reflexivity.
Qed.

Lemma I_SetFrameTime_initial :
  CurrentFrameStartTime (I_SetFrameTime initial)
  = FirstFrameStartTime (I_SetFrameTime initial).
Proof.
  unfold I_SetFrameTime, initial, GetClockTimeNS; simpl.
  destruct (to_uint64 (clock 0) =? 0) eqn:E; simpl.
  - reflexivity.
  - reflexivity.
Qed.

(** ** Frame snapshots *)

Lemma I_SetFrameTime_frozen (w : world) :
  FreezeTime w <> 0 -> I_SetFrameTime w = w.
Proof.
  intros H. unfold I_SetFrameTime.
  destruct (FreezeTime w =? 0) eqn:E; [apply Z.eqb_eq in E; contradiction | reflexivity].
Qed.

Lemma I_SetFrameTime_unfrozen (w : world) :
  FreezeTime w = 0 ->
  I_SetFrameTime w
  = mkWorld (if FirstFrameStartTime w =? 0
             then to_uint64 (clock (reads w)) else FirstFrameStartTime w)
            (to_uint64 (clock (reads w))) 0 (S (reads w)) (sleeps w).
Proof.
  intros H. unfold I_SetFrameTime, GetClockTimeNS, set_Current, set_First.
  rewrite H. simpl.
  destruct (FirstFrameStartTime w =? 0); reflexivity.
Qed.

Lemma I_FreezeTime_true (w : world) :
  I_FreezeTime true w
  = mkWorld (FirstFrameStartTime w) (CurrentFrameStartTime w)
            (to_uint64 (clock (reads w))) (S (reads w)) (sleeps w).
Proof. reflexivity. Qed.

Lemma I_FreezeTime_false (w : world) :
  I_FreezeTime false w
  = I_SetFrameTime
      (mkWorld (to_uint64 (FirstFrameStartTime w
                           + to_uint64 (to_uint64 (clock (reads w)) - FreezeTime w)))
               (CurrentFrameStartTime w) 0 (S (reads w)) (sleeps w)).
Proof. reflexivity. Qed.

End Timer.

(** ** List clocks *)

Lemma clock_of_list_In (l : list Z) (n : nat) :
  l <> [] -> In (clock_of_list l n) l.
Proof.
  revert n. induction l as [|t l IH]; intros n Hne; [congruence|].
  destruct n as [|n]; simpl.
  - now left.
  - destruct l as [|u l]; [now left|].
    right. apply IH. discriminate.
Qed.

Lemma clock_of_list_monotone (l : list Z) :
  StronglySorted Z.le l -> clock_monotone (clock_of_list l).
Proof.
  intros Hs. induction Hs as [|t l Hs IH Hall]; intros i j Hij.
  - reflexivity.
  - destruct i as [|i], j as [|j]; simpl; try lia.
    + destruct l as [|u l]; [lia|].
      rewrite Forall_forall in Hall. apply Hall.
      apply clock_of_list_In. discriminate.
    + destruct l as [|u l]; [lia|].
      apply IH. lia.
Qed.

Lemma clock_of_list_in_range (l : list Z) :
  Forall (fun t => 0 <= t < 2 ^ 64) l -> clock_in_range (clock_of_list l).
Proof.
  intros Hall i. destruct l as [|t l].
  - simpl. zconst. lia.
  - rewrite Forall_forall in Hall. apply Hall.
    apply clock_of_list_In. discriminate.
Qed.

(** * The claims *)

(** C1, as stated, fails on its worked example: at 35 tics per second a frame
    snapshot taken 28,571,428 ns after the first frame is still in tic 1,
    because 28,571,428 * 35 = 999,999,980 is less than 10^9.  The formula
    itself fails once the tic leaves the range of [int]:
    61,356,675,657,142,858 ns after the first frame it gives 2147483649,
    and [I_GetTime] returns -2147483647. *)
Lemma C1_counterexample :
  let w := snapshots (clock_of_list [1000; 28572428]) 2 initial in
  let v := snapshots (clock_of_list [1; 61356675657142859]) 2 initial in
  (FreezeTime w = 0 /\
   CurrentFrameStartTime w - FirstFrameStartTime w = 28571428 /\
   I_GetTime TICRATE_doom w = 1 /\
   I_GetTime TICRATE_doom w <> 2) /\
  (FreezeTime v = 0 /\
   (CurrentFrameStartTime v - FirstFrameStartTime v) * TICRATE_doom / 1000000000 + 1
   = 2147483649 /\
   I_GetTime TICRATE_doom v = -2147483647).
Proof. vm_compute. repeat split; discriminate. Qed.

(** C1 (amended): while the first frame is not later than the current one
    and the tic fits an [int], [I_GetTime] returns
    floor((CurrentFrameStartTime - FirstFrameStartTime) * TICRATE / 10^9) + 1.
    Right after the very first [I_SetFrameTime] it returns 1, whatever the
    clock and the rate.  At 35 tics per second an elapsed time of
    28,571,428 ns gives tic 1, 28,571,429 ns gives tic 2, and 57,142,857 ns
    still gives tic 2. *)
Theorem C1_I_GetTime_value (TICRATE : Z) (clock : nat -> Z) (w : world) :
  0 < TICRATE < 2 ^ 64 ->
  0 <= FirstFrameStartTime w <= CurrentFrameStartTime w ->
  CurrentFrameStartTime w < 2 ^ 64 ->
  tic_in_range TICRATE (CurrentFrameStartTime w - FirstFrameStartTime w) ->
  I_GetTime TICRATE w
  = (CurrentFrameStartTime w - FirstFrameStartTime w) * TICRATE / 1000000000 + 1
  /\ I_GetTime TICRATE (I_SetFrameTime clock initial) = 1
  /\ (TICRATE = TICRATE_doom ->
      (CurrentFrameStartTime w - FirstFrameStartTime w = 28571428 ->
       I_GetTime TICRATE w = 1) /\
      (CurrentFrameStartTime w - FirstFrameStartTime w = 28571429 ->
       I_GetTime TICRATE w = 2) /\
      (CurrentFrameStartTime w - FirstFrameStartTime w = 57142857 ->
       I_GetTime TICRATE w = 2)).
Proof.
  intros HT HFC HC Hr.
  pose proof (I_GetTime_exact TICRATE w HT HFC HC Hr) as E.
  split; [exact E|]. split.
  - apply I_GetTime_zero_elapsed, I_SetFrameTime_initial.
  - intros ->. rewrite E. unfold TICRATE_doom.
    repeat split; intros ->; reflexivity.
Qed.

Lemma C1_I_GetTime_value_witness :
  let w := snapshots (clock_of_list [1000; 28572429]) 2 initial in
  I_GetTime TICRATE_doom w = 28571429 * 35 / 1000000000 + 1 /\
  I_GetTime TICRATE_doom w = 2.
Proof.
  intros w.
  assert (HT : 0 < TICRATE_doom < 2 ^ 64) by (vm_compute; split; reflexivity).
  assert (HFC : 0 <= FirstFrameStartTime w <= CurrentFrameStartTime w)
    by (vm_compute; split; discriminate).
  assert (HC : CurrentFrameStartTime w < 2 ^ 64) by (vm_compute; reflexivity).
  assert (Hr : tic_in_range TICRATE_doom
                 (CurrentFrameStartTime w - FirstFrameStartTime w))
    by (vm_compute; split; [discriminate | reflexivity]).
  destruct (C1_I_GetTime_value TICRATE_doom (clock_of_list []) w HT HFC HC Hr)
    as [E [_ H35]].
  split.
  - exact E.
  - destruct (H35 eq_refl) as [_ [H2 _]]. apply H2. reflexivity.
Defined.

(** C7: while time is frozen, [I_SetFrameTime] changes none of
    FirstFrameStartTime, CurrentFrameStartTime and FreezeTime; it does not
    even read the clock. *)
Theorem C7_I_SetFrameTime_frozen (clock : nat -> Z) (w : world) :
  FreezeTime w <> 0 ->
  timer_vars (I_SetFrameTime clock w) = timer_vars w /\
  I_SetFrameTime clock w = w.
Proof.
  intros H. rewrite (I_SetFrameTime_frozen clock w H). split; reflexivity.
Qed.

Lemma C7_I_SetFrameTime_frozen_witness :
  let clock := clock_of_list [5000; 6000] in
  let w := mkWorld 1000 2000 3000 0 [] in
  timer_vars (I_SetFrameTime clock w) = (1000, 2000, 3000) /\
  I_SetFrameTime clock w = w.
Proof.
  intros clock w.
  apply (C7_I_SetFrameTime_frozen clock w). simpl. discriminate.
Defined.

(** C5: [I_NSTime] with FreezeTime = 0 returns
    CurrentFrameStartTime - FirstFrameStartTime (in [uint64_t] arithmetic,
    the plain difference when the first frame is not the later one) without
    touching the state or the clock, so a second call returns the same;
    frozen with FirstFrameStartTime = 0 it stores a clock reading into
    FirstFrameStartTime and returns 0; frozen with FirstFrameStartTime set it
    returns the clock reading minus FirstFrameStartTime. *)
Theorem C5_I_NSTime (clock : nat -> Z) (w : world) :
  (FreezeTime w = 0 ->
   I_NSTime clock w
   = (to_uint64 (CurrentFrameStartTime w - FirstFrameStartTime w), w) /\
   I_NSTime clock (snd (I_NSTime clock w)) = I_NSTime clock w /\
   (0 <= FirstFrameStartTime w <= CurrentFrameStartTime w ->
    CurrentFrameStartTime w < 2 ^ 64 ->
    fst (I_NSTime clock w) = CurrentFrameStartTime w - FirstFrameStartTime w)) /\
  (FreezeTime w <> 0 -> FirstFrameStartTime w = 0 ->
   I_NSTime clock w
   = (0, mkWorld (to_uint64 (clock (reads w))) (CurrentFrameStartTime w)
                 (FreezeTime w) (S (reads w)) (sleeps w))) /\
  (FreezeTime w <> 0 -> FirstFrameStartTime w <> 0 ->
   I_NSTime clock w
   = (to_uint64 (to_uint64 (clock (reads w)) - FirstFrameStartTime w),
      mkWorld (FirstFrameStartTime w) (CurrentFrameStartTime w)
              (FreezeTime w) (S (reads w)) (sleeps w))).
Proof.
  unfold I_NSTime, GetClockTimeNS, set_First. repeat split.
  - rewrite H. reflexivity.
  - rewrite H. simpl. rewrite H. reflexivity.
  - intros HFC HC. rewrite H. simpl. apply to_uint64_small. zconst. lia.
  - intros Hz HF. apply Z.eqb_neq in Hz. rewrite Hz, HF. reflexivity.
  - intros Hz HF. apply Z.eqb_neq in Hz, HF. rewrite Hz, HF. reflexivity.
Qed.

Lemma C5_I_NSTime_witness :
  let clock := clock_of_list [9000; 9500] in
  I_NSTime clock (mkWorld 1000 2500 0 0 []) = (1500, mkWorld 1000 2500 0 0 []) /\
  I_NSTime clock (mkWorld 0 0 8000 0 []) = (0, mkWorld 9000 0 8000 1 []) /\
  I_NSTime clock (mkWorld 1000 2500 8000 0 []) = (8000, mkWorld 1000 2500 8000 1 []).
Proof.
  intros clock. split; [|split].
  - destruct (C5_I_NSTime clock (mkWorld 1000 2500 0 0 [])) as [H _].
    destruct (H eq_refl) as [E _]. exact E.
  - destruct (C5_I_NSTime clock (mkWorld 0 0 8000 0 [])) as [_ [H _]].
    apply H; simpl; [discriminate | reflexivity].
  - destruct (C5_I_NSTime clock (mkWorld 1000 2500 8000 0 [])) as [_ [_ H]].
    apply H; simpl; discriminate.
Defined.

(** C9: [I_MSTime] is [I_NSTime] divided by 1,000,000 with floor division
    and reduced modulo 2^32, and [I_FPSTime] is [I_FPSTimeNS] treated the
    same way; both leave the state as the nanosecond query leaves it. *)
Theorem C9_milliseconds (clock : nat -> Z) (w : world) :
  I_MSTime clock w
  = ((fst (I_NSTime clock w) / 1000000) mod 2 ^ 32, snd (I_NSTime clock w)) /\
  I_FPSTime clock w
  = ((fst (I_FPSTimeNS clock w) / 1000000) mod 2 ^ 32, snd (I_FPSTimeNS clock w)) /\
  0 <= fst (I_MSTime clock w) < 2 ^ 32 /\
  0 <= fst (I_FPSTime clock w) < 2 ^ 32 /\
  1000000 * (fst (I_NSTime clock w) / 1000000)
    <= fst (I_NSTime clock w)
    < 1000000 * (fst (I_NSTime clock w) / 1000000) + 1000000.
Proof.
  unfold I_MSTime, I_FPSTime, NSToMS.
  destruct (I_NSTime clock w) as [ns w1].
  destruct (I_FPSTimeNS clock w) as [fps w2].
  cbn [fst snd]. repeat split; try apply to_uint32_range.
  - apply Z.mul_div_le. lia.
  - pose proof (Z.mul_succ_div_gt ns 1000000). lia.
Qed.

(** C10: [I_FreezeTime(false)] called while FreezeTime = 0 adds the whole
    clock reading to FirstFrameStartTime (in [uint64_t] arithmetic): the
    first-frame time changes, it moves forward by the reading when the sum
    fits 64 bits, and the call is not a no-op. *)
Theorem C10_unmatched_unfreeze (clock : nat -> Z) (w : world) :
  FreezeTime w = 0 ->
  0 < clock (reads w) < 2 ^ 64 ->
  0 <= FirstFrameStartTime w < 2 ^ 64 ->
  to_uint64 (FirstFrameStartTime w + clock (reads w)) <> 0 ->
  let w' := I_FreezeTime clock false w in
  FirstFrameStartTime w' = to_uint64 (FirstFrameStartTime w + clock (reads w)) /\
  FirstFrameStartTime w' <> FirstFrameStartTime w /\
  (FirstFrameStartTime w + clock (reads w) < 2 ^ 64 ->
   FirstFrameStartTime w' = FirstFrameStartTime w + clock (reads w) /\
   FirstFrameStartTime w < FirstFrameStartTime w') /\
  CurrentFrameStartTime w' = to_uint64 (clock (S (reads w))) /\
  FreezeTime w' = 0 /\
  timer_vars w' <> timer_vars w.
Proof.
  intros Hz Ht HF Hsum w'.
  set (F' := to_uint64 (FirstFrameStartTime w + clock (reads w))) in *.
  assert (E : w' = mkWorld F' (to_uint64 (clock (S (reads w)))) 0
                           (S (S (reads w))) (sleeps w)).
  { unfold w'. rewrite I_FreezeTime_false, Hz, Z.sub_0_r.
    rewrite (to_uint64_small (clock (reads w))) by lia.
    rewrite (to_uint64_small (clock (reads w))) by lia.
    fold F'.
    rewrite I_SetFrameTime_unfrozen by reflexivity.
    cbn [FirstFrameStartTime reads sleeps].
    destruct (F' =? 0) eqn:E0; [apply Z.eqb_eq in E0; contradiction | reflexivity]. }
  assert (Hne : F' <> FirstFrameStartTime w).
  { unfold F', to_uint64 in *. zconst.
    pose proof (Z.div_mod (FirstFrameStartTime w + clock (reads w))
                          18446744073709551616 ltac:(lia)) as Hdm.
    intros Heq. rewrite Heq in Hdm. lia. }
  rewrite E. cbn [FirstFrameStartTime CurrentFrameStartTime FreezeTime].
  split; [reflexivity|]. split; [exact Hne|]. split.
  - intros Hlt. unfold F'. rewrite to_uint64_small by lia. lia.
  - split; [reflexivity|]. split; [reflexivity|].
    unfold timer_vars. cbn [FirstFrameStartTime CurrentFrameStartTime FreezeTime].
    intros Heq. injection Heq as H1 H2 H3. contradiction.
Qed.

Lemma C10_unmatched_unfreeze_witness :
  let clock := clock_of_list [3000; 3001] in
  let w := mkWorld 1000 2000 0 0 [] in
  FirstFrameStartTime (I_FreezeTime clock false w) = 4000 /\
  timer_vars (I_FreezeTime clock false w) <> timer_vars w.
Proof.
  intros clock w.
  assert (H : FreezeTime w = 0) by reflexivity.
  assert (Ht : 0 < clock (reads w) < 2 ^ 64) by (split; reflexivity).
  assert (HF : 0 <= FirstFrameStartTime w < 2 ^ 64)
    by (split; [discriminate | reflexivity]).
  assert (Hs : to_uint64 (FirstFrameStartTime w + clock (reads w)) <> 0)
    by (vm_compute; discriminate).
  destruct (C10_unmatched_unfreeze clock w H Ht HF Hs) as [E [_ [_ [_ [_ N]]]]].
  split; [exact E | exact N].
Defined.

(** ** The fraction of a tic *)

Lemma TicToNS_exact (TICRATE tic : Z) :
  0 < TICRATE < 2 ^ 64 -> 0 <= tic <= INT_MAX ->
  TicToNS TICRATE tic = tic * 1000000000 / TICRATE.
Proof.
  intros HT Htic. unfold TicToNS.
  rewrite (to_uint64_small TICRATE) by lia.
  rewrite (to_uint64_small tic) by (zconst; lia).
  rewrite to_uint64_small by (zconst; lia).
  reflexivity.
Qed.

(** The tic boundaries computed by [TicToNS] enclose the elapsed time, the
    upper one included: the two floor divisions do not cancel. *)
Lemma tic_bounds (TICRATE e : Z) :
  0 < TICRATE <= 1000000000 -> 0 <= e ->
  let tic := e * TICRATE / 1000000000 in
  tic * 1000000000 / TICRATE <= e <= (tic + 1) * 1000000000 / TICRATE /\
  tic * 1000000000 / TICRATE < (tic + 1) * 1000000000 / TICRATE.
Proof.
  intros HT He tic.
  assert (Hlo : tic * 1000000000 <= e * TICRATE).
  { unfold tic. rewrite Z.mul_comm. apply Z.mul_div_le. lia. }
  assert (Hhi : e * TICRATE < (tic + 1) * 1000000000).
  { unfold tic. pose proof (Z.mul_succ_div_gt (e * TICRATE) 1000000000). lia. }
  repeat split.
  - apply Z.div_le_upper_bound; lia.
  - apply Z.div_le_lower_bound; lia.
  - assert (Hstep : tic * 1000000000 / TICRATE + 1
                    <= (tic + 1) * 1000000000 / TICRATE).
    { replace (tic * 1000000000 / TICRATE + 1)
        with ((tic * 1000000000 + 1 * TICRATE) / TICRATE)
        by (rewrite Z.div_add by lia; reflexivity).
      apply Z.div_le_mono; lia. }
    lia.
Qed.

Lemma I_GetTimeFrac_operands (TICRATE : Z) (ms : bool) (w : world) :
  0 < TICRATE <= 1000000000 ->
  0 <= FirstFrameStartTime w <= CurrentFrameStartTime w ->
  CurrentFrameStartTime w < 2 ^ 64 ->
  tic_in_range TICRATE (CurrentFrameStartTime w - FirstFrameStartTime w) ->
  let e := CurrentFrameStartTime w - FirstFrameStartTime w in
  let tic := e * TICRATE / 1000000000 in
  I_GetTimeFrac TICRATE ms w
  = mkTimefrac (e - tic * 1000000000 / TICRATE)
               ((tic + 1) * 1000000000 / TICRATE - tic * 1000000000 / TICRATE)
               (if ms then Some (tic + 1) else None).
Proof.
  intros HT HFC HC Hr e tic.
  assert (HT' : 0 < TICRATE < 2 ^ 64) by (zconst; lia).
  destruct (NSToTic_exact TICRATE e HT' Hr) as [Etic Htic].
  fold tic in Etic. rewrite Etic in Htic.
  destruct (tic_bounds TICRATE e ltac:(lia) ltac:(unfold e; lia)) as [[Hlo Hhi] Hlt].
  fold tic in Hlo, Hhi, Hlt.
  assert (Hnext : (tic + 1) * 1000000000 / TICRATE < 2 ^ 64).
  { apply Z.div_lt_upper_bound; [lia|]. zconst. nia. }
  assert (H0 : 0 <= tic * 1000000000 / TICRATE) by (apply Z.div_pos; lia).
  unfold I_GetTimeFrac.
  rewrite (to_uint64_small (CurrentFrameStartTime w - FirstFrameStartTime w))
    by (zconst; lia).
  fold e. rewrite Etic.
  rewrite (to_int_small (tic + 1)) by (zconst; lia).
  rewrite !TicToNS_exact by (zconst; lia).
  rewrite to_uint64_sub_r.
  rewrite to_uint64_sub_r, to_uint64_sub_l.
  rewrite (to_uint32_small (tic + 1)) by (zconst; lia).
  f_equal.
  - rewrite to_uint64_small by (unfold e in *; zconst; lia). unfold e. lia.
  - rewrite to_uint64_small by (zconst; lia). lia.
Qed.

(** C2, as stated, fails: at 35 tics per second, 28,571,428 ns after the
    first frame the tic is still tic 0 and the next boundary is
    floor(10^9 / 35) = 28,571,428 as well, so the fraction is 28571428 /
    28571428: exactly 1, also as an IEEE double.  And once the tic leaves
    the range of [int] the operands are unrelated: 61,356,675,657,142,858 ns
    after the first frame the numerator is far above the denominator, and
    the value stored through the pointer, 2147483649, is not the
    -2147483647 that [I_GetTime] returns. *)
Lemma C2_counterexample :
  let w := snapshots (clock_of_list [1000; 28572428]) 2 initial in
  let r := I_GetTimeFrac TICRATE_doom true w in
  let v := snapshots (clock_of_list [1; 61356675657142859]) 2 initial in
  let q := I_GetTimeFrac TICRATE_doom true v in
  (FirstFrameStartTime w <= CurrentFrameStartTime w /\
   frac_num r = 28571428 /\
   frac_den r = 28571428 /\
   ~ (frac_exact r < 1)%Q /\
   frac_double r = double_one) /\
  (FirstFrameStartTime v <= CurrentFrameStartTime v /\
   frac_den q < frac_num q /\
   frac_ms q = Some 2147483649 /\
   I_GetTime TICRATE_doom v = -2147483647).
Proof.
  vm_compute. repeat split; try discriminate.
Qed.

(** C2 (amended): while the first frame is not later than the current one
    and the tic fits an [int], the fraction [I_GetTimeFrac] returns lies in
    the closed interval from 0 to 1 (1 included, see the counterexample; it
    stays below 1 when TICRATE divides 10^9), and the value stored through
    the pointer is the 0-based tic plus 1, the value of [I_GetTime]. *)
Theorem C2_I_GetTimeFrac_range (TICRATE : Z) (ms : bool) (w : world) :
  0 < TICRATE <= 1000000000 ->
  0 <= FirstFrameStartTime w <= CurrentFrameStartTime w ->
  CurrentFrameStartTime w < 2 ^ 64 ->
  tic_in_range TICRATE (CurrentFrameStartTime w - FirstFrameStartTime w) ->
  let r := I_GetTimeFrac TICRATE ms w in
  0 <= frac_num r <= frac_den r /\
  0 < frac_den r /\
  (0 <= frac_exact r)%Q /\
  (frac_exact r <= 1)%Q /\
  (1000000000 mod TICRATE = 0 -> frac_num r < frac_den r) /\
  frac_ms r = (if ms then Some (I_GetTime TICRATE w) else None) /\
  I_GetTime TICRATE w
  = NSToTic TICRATE
      (to_uint64 (CurrentFrameStartTime w - FirstFrameStartTime w)) + 1.
Proof.
  intros HT HFC HC Hr r.
  assert (HT' : 0 < TICRATE < 2 ^ 64) by (zconst; lia).
  set (e := CurrentFrameStartTime w - FirstFrameStartTime w) in *.
  set (tic := e * TICRATE / 1000000000).
  assert (Er : r = mkTimefrac (e - tic * 1000000000 / TICRATE)
                 ((tic + 1) * 1000000000 / TICRATE - tic * 1000000000 / TICRATE)
                 (if ms then Some (tic + 1) else None))
    by (apply I_GetTimeFrac_operands; assumption).
  destruct (tic_bounds TICRATE e ltac:(lia) ltac:(unfold e; lia)) as [[Hlo Hhi] Hlt].
  fold tic in Hlo, Hhi, Hlt.
  assert (Eg : I_GetTime TICRATE w = tic + 1)
    by (apply I_GetTime_exact; assumption).
  destruct (NSToTic_exact TICRATE e HT' Hr) as [Etic Htic].
  assert (Hnum : 0 <= frac_num r <= frac_den r) by (rewrite Er; simpl; lia).
  assert (Hden : 0 < frac_den r) by (rewrite Er; simpl; lia).
  assert (HdenQ : (0 < inject_Z (frac_den r))%Q)
    by (rewrite <- (Zlt_Qlt 0); exact Hden).
  split; [exact Hnum|]. split; [exact Hden|]. split; [|split; [|split; [|split]]].
  - unfold frac_exact. apply Qle_shift_div_l; [exact HdenQ|].
    rewrite Qmult_0_l. rewrite <- (Zle_Qle 0). lia.
  - unfold frac_exact. apply Qle_shift_div_r; [exact HdenQ|].
    rewrite Qmult_1_l. rewrite <- Zle_Qle. lia.
  - intros Hdiv. rewrite Er. simpl.
    apply Z.mod_divide in Hdiv; [|lia]. destruct Hdiv as [p Hp].
    assert (Hp0 : 0 < p) by nia.
    assert (E0 : tic * 1000000000 / TICRATE = tic * p).
    { rewrite Hp, Z.mul_assoc. apply Z.div_mul. lia. }
    assert (E1 : (tic + 1) * 1000000000 / TICRATE = (tic + 1) * p).
    { rewrite Hp, Z.mul_assoc. apply Z.div_mul. lia. }
    assert (Et : tic = e / p).
    { unfold tic. rewrite Hp. apply Z.div_mul_cancel_r; lia. }
    rewrite E0, E1, Et.
    pose proof (Z.mul_succ_div_gt e p Hp0). lia.
  - rewrite Er, Eg. reflexivity.
  - rewrite to_uint64_small by (unfold e in *; zconst; lia).
    fold e. rewrite Eg, Etic. reflexivity.
Qed.

Lemma C2_I_GetTimeFrac_range_witness :
  let w := snapshots (clock_of_list [1000; 10001000]) 2 initial in
  let r := I_GetTimeFrac TICRATE_doom true w in
  0 <= frac_num r <= frac_den r /\ frac_ms r = Some (I_GetTime TICRATE_doom w).
Proof.
  intros w r.
  assert (HT : 0 < TICRATE_doom <= 1000000000)
    by (split; [reflexivity | discriminate]).
  assert (HFC : 0 <= FirstFrameStartTime w <= CurrentFrameStartTime w)
    by (vm_compute; split; discriminate).
  assert (HC : CurrentFrameStartTime w < 2 ^ 64) by (vm_compute; reflexivity).
  assert (Hr : tic_in_range TICRATE_doom
                 (CurrentFrameStartTime w - FirstFrameStartTime w))
    by (vm_compute; split; [discriminate | reflexivity]).
  destruct (C2_I_GetTimeFrac_range TICRATE_doom true w HT HFC HC Hr)
    as [Hn [_ [_ [_ [_ [Hms _]]]]]].
  split; [exact Hn | exact Hms].
Defined.

(** ** Monotonicity of the tic *)

Section Monotone.

Variable TICRATE : Z.
Variable clock : nat -> Z.
Hypothesis rate_pos : 0 < TICRATE < 2 ^ 64.
Hypothesis clock_mono : clock_monotone clock.
Hypothesis clock_range : clock_in_range clock.

Lemma I_GetTime_mono (w w' : world) :
  0 <= FirstFrameStartTime w <= CurrentFrameStartTime w ->
  0 <= FirstFrameStartTime w' <= CurrentFrameStartTime w' ->
  CurrentFrameStartTime w < 2 ^ 64 ->
  CurrentFrameStartTime w' < 2 ^ 64 ->
  CurrentFrameStartTime w - FirstFrameStartTime w
    <= CurrentFrameStartTime w' - FirstFrameStartTime w' ->
  tic_in_range TICRATE (CurrentFrameStartTime w' - FirstFrameStartTime w') ->
  I_GetTime TICRATE w <= I_GetTime TICRATE w'.
Proof.
  intros Hw Hw' HC HC' Hle Hr'.
  assert (Hr : tic_in_range TICRATE (CurrentFrameStartTime w - FirstFrameStartTime w))
    by (eapply tic_in_range_le; [apply rate_pos | split; [|exact Hle]; lia | exact Hr']).
  rewrite !I_GetTime_exact by assumption.
  apply Z.add_le_mono_r, Z.div_le_mono; [lia | nia].
Qed.

Lemma I_SetFrameTime_consistent (w : world) :
  frames_consistent clock w -> frames_consistent clock (I_SetFrameTime clock w).
Proof.
  intros (HFC & HC & H0).
  destruct (Z.eq_dec (FreezeTime w) 0) as [Hz|Hz].
  - rewrite I_SetFrameTime_unfrozen by exact Hz.
    rewrite to_uint64_small by apply clock_range.
    pose proof (clock_mono (reads w) (S (reads w)) ltac:(lia)) as Hn.
    unfold frames_consistent. cbn [FirstFrameStartTime CurrentFrameStartTime reads].
    destruct (FirstFrameStartTime w =? 0) eqn:E.
    + apply Z.eqb_eq in E. lia.
    + apply Z.eqb_neq in E. lia.
  - rewrite I_SetFrameTime_frozen by exact Hz. now repeat split.
Qed.

Lemma tics_after_snapshots_sorted (n : nat) (w : world) :
  frames_consistent clock w ->
  elapsed_in_range TICRATE clock n w ->
  Sorted Z.le (I_GetTime TICRATE w :: tics_after_snapshots TICRATE clock n w).
Proof.
  revert w. induction n as [|n IH]; intros w Hc Hr.
  - simpl. repeat constructor.
  - cbn [tics_after_snapshots].
    pose proof (I_SetFrameTime_consistent w Hc) as Hc1.
    destruct Hc as (HFC & HC & H0).
    destruct (Z.eq_dec (FreezeTime w) 0) as [Hz|Hz].
    + assert (Hr0 : tic_in_range TICRATE (clock (reads w) - FirstFrameStartTime w))
        by (apply Hr; lia).
      pose proof (clock_range (reads w)) as Ht.
      set (w1 := I_SetFrameTime clock w) in *.
      assert (E1 : w1 = mkWorld (if FirstFrameStartTime w =? 0
                                 then clock (reads w) else FirstFrameStartTime w)
                                (clock (reads w)) 0 (S (reads w)) (sleeps w)).
      { unfold w1. rewrite I_SetFrameTime_unfrozen by exact Hz.
        now rewrite to_uint64_small by exact Ht. }
      constructor.
      * apply IH; [exact Hc1|].
        intros i Hi. rewrite E1 in Hi |- *.
        cbn [FirstFrameStartTime reads] in Hi |- *.
        pose proof (clock_mono (reads w) i ltac:(lia)) as Hmi.
        assert (Hri : tic_in_range TICRATE (clock i - FirstFrameStartTime w))
          by (apply Hr; lia).
        destruct (FirstFrameStartTime w =? 0) eqn:E; [|exact Hri].
        apply (tic_in_range_le TICRATE _ (clock i - FirstFrameStartTime w));
          [lia | lia | exact Hri].
      * constructor. apply I_GetTime_mono.
        -- exact HFC.
        -- apply Hc1.
        -- lia.
        -- rewrite E1. cbn [CurrentFrameStartTime]. lia.
        -- rewrite E1. cbn [FirstFrameStartTime CurrentFrameStartTime].
           destruct (FirstFrameStartTime w =? 0) eqn:E.
           ++ apply Z.eqb_eq in E. rewrite (H0 E), E. lia.
           ++ lia.
        -- rewrite E1. cbn [FirstFrameStartTime CurrentFrameStartTime].
           destruct (FirstFrameStartTime w =? 0) eqn:E; [|exact Hr0].
           rewrite Z.sub_diag. split; [lia|]. zconst. lia.
    + rewrite (I_SetFrameTime_frozen clock w Hz).
      assert (Hs : Sorted Z.le (I_GetTime TICRATE w :: tics_after_snapshots TICRATE clock n w)).
      { apply IH; [now repeat split|]. intros i Hi. apply Hr. lia. }
      constructor; [exact Hs|]. constructor. lia.
Qed.

End Monotone.

(** C4, as stated, fails when the tic leaves the range of [int]: at 35 tics
    per second, a snapshot 61,356,675,657,142,858 ns (about 1.9 years) after
    the first frame has tic index 2^31, which [static_cast<int>] turns into
    -2^31, so the tic drops from 1 to -2147483647 although the clock only
    went forward. *)
Lemma C4_counterexample :
  let clock := clock_of_list [1; 61356675657142859] in
  clock_monotone clock /\
  clock_in_range clock /\
  tics_after_snapshots TICRATE_doom clock 2 initial = [1; -2147483647] /\
  ~ Sorted Z.le (tics_after_snapshots TICRATE_doom clock 2 initial).
Proof.
  intros clock.
  assert (E : tics_after_snapshots TICRATE_doom clock 2 initial = [1; -2147483647])
    by (vm_compute; reflexivity).
  split; [|split; [|split]].
  - apply clock_of_list_monotone. repeat constructor; lia.
  - apply clock_of_list_in_range. repeat constructor; zconst; lia.
  - exact E.
  - rewrite E. intros H. inversion H as [|? ? _ Hd]. inversion Hd. lia.
Qed.

(** C4 (amended): with a clock that never goes back, started in a state
    whose frames are consistent with it (the initial state is one), and as
    long as the elapsed time of every snapshot keeps the tic within [int]
    (elapsed * TICRATE < (2^31 - 1) * 10^9), the tics [I_GetTime] returns
    after the successive [I_SetFrameTime] calls never decrease, starting from
    the tic before the first snapshot. *)
Theorem C4_tics_nondecreasing (TICRATE : Z) (clock : nat -> Z) (n : nat) (w : world) :
  0 < TICRATE < 2 ^ 64 ->
  clock_monotone clock ->
  clock_in_range clock ->
  frames_consistent clock w ->
  elapsed_in_range TICRATE clock n w ->
  Sorted Z.le (tics_after_snapshots TICRATE clock n w) /\
  Sorted Z.le (I_GetTime TICRATE w :: tics_after_snapshots TICRATE clock n w).
Proof.
  intros HT Hm Hr Hc He.
  pose proof (tics_after_snapshots_sorted TICRATE clock HT Hm Hr n w Hc He) as Hs.
  split; [|exact Hs].
  inversion Hs; assumption.
Qed.

Lemma C4_tics_nondecreasing_witness :
  let clock := clock_of_list [1000; 28572429; 90000000] in
  Sorted Z.le (tics_after_snapshots TICRATE_doom clock 3 initial) /\
  tics_after_snapshots TICRATE_doom clock 3 initial = [1; 2; 4].
Proof.
  intros clock. split; [|vm_compute; reflexivity].
  assert (HT : 0 < TICRATE_doom < 2 ^ 64) by (split; reflexivity).
  assert (Hm : clock_monotone clock)
    by (apply clock_of_list_monotone; repeat constructor; lia).
  assert (Hr : clock_in_range clock)
    by (apply clock_of_list_in_range; repeat constructor; zconst; lia).
  assert (Hc : frames_consistent clock initial)
    by (unfold frames_consistent, clock; simpl; lia).
  assert (He : elapsed_in_range TICRATE_doom clock 3 initial).
  { intros i Hi. simpl in Hi.
    destruct i as [|[|[|i]]]; try lia; vm_compute; split; congruence. }
  exact (proj1 (C4_tics_nondecreasing TICRATE_doom clock 3 initial HT Hm Hr Hc He)).
Defined.

(** ** Freezing and unfreezing *)

(** C3, as stated, fails for a freeze that comes before the first frame
    when the elapsed time is queried during the freeze: [I_NSTime] then sets
    FirstFrameStartTime to the reading of that query (200), and the unfreeze
    moves it on by the whole frozen interval (300 - 100), past the new
    current frame (300).  [I_NSTime] was 0 before the freeze and is
    2^64 - 100 after the unfreeze.  Without the query, a freeze taken at
    reading 10^12 before any snapshot leaves [I_NSTime] at 10^12 where it
    was 0: what is added is the time from the last snapshot to the freeze,
    whatever its length. *)
Lemma C3_counterexample :
  let clock := clock_of_list [100; 200; 300; 300] in
  let w1 := I_FreezeTime clock true initial in
  let w2 := snd (I_NSTime clock w1) in
  let w3 := I_FreezeTime clock false w2 in
  let clock' := clock_of_list [1000000000000; 2000000000000; 2000000000000] in
  let v2 := I_FreezeTime clock' false (I_FreezeTime clock' true initial) in
  (clock_monotone clock /\
   fst (I_NSTime clock initial) = 0 /\
   FreezeTime w1 = 100 /\
   I_NSTime clock w1 = (0, w2) /\
   timer_vars w3 = (400, 300, 0) /\
   fst (I_NSTime clock w3) = 18446744073709551516) /\
  (clock_monotone clock' /\
   fst (I_NSTime clock' initial) = 0 /\
   fst (I_NSTime clock' v2) = 1000000000000).
Proof.
  intros clock w1 w2 w3 clock' v2. split; split.
  - apply clock_of_list_monotone. repeat constructor; lia.
  - vm_compute. repeat split.
  - apply clock_of_list_monotone. repeat constructor; lia.
  - vm_compute. repeat split.
Qed.

(** C3 (amended): in a frozen state [I_FreezeTime(false)] moves
    FirstFrameStartTime forward by exactly the clock reading minus
    FreezeTime, clears FreezeTime and then runs [I_SetFrameTime], which
    stores the next reading as the current frame.  So when [w] is a state
    frozen from [w0] at reading t1 with the frame times as they were in [w0],
    and it is unfrozen at reading t2, [I_NSTime] after the unfreeze is
    [I_NSTime] before the freeze plus the time from the last snapshot to the
    freeze plus the time between the two readings of the unfreeze: the
    frozen interval t2 - t1 does not appear in it. *)
Theorem C3_unfreeze_excises (clock : nat -> Z) (w : world) :
  let t2 := clock (reads w) in
  let t3 := clock (S (reads w)) in
  FreezeTime w <> 0 ->
  0 <= FirstFrameStartTime w ->
  0 <= FreezeTime w <= t2 ->
  t2 <= t3 < 2 ^ 64 ->
  FirstFrameStartTime w + (t2 - FreezeTime w) < 2 ^ 64 ->
  FirstFrameStartTime w + (t2 - FreezeTime w) <> 0 ->
  let w' := I_FreezeTime clock false w in
  w' = I_SetFrameTime clock
         (mkWorld (FirstFrameStartTime w + (t2 - FreezeTime w))
                  (CurrentFrameStartTime w) 0 (S (reads w)) (sleeps w)) /\
  FirstFrameStartTime w' = FirstFrameStartTime w + (t2 - FreezeTime w) /\
  FreezeTime w' = 0 /\
  CurrentFrameStartTime w' = t3 /\
  (forall w0 : world,
     FreezeTime w0 = 0 ->
     0 <= FirstFrameStartTime w0 <= CurrentFrameStartTime w0 ->
     CurrentFrameStartTime w0 <= clock (reads w0) < 2 ^ 64 ->
     timer_vars w = timer_vars (I_FreezeTime clock true w0) ->
     fst (I_NSTime clock w')
     = fst (I_NSTime clock w0)
       + (clock (reads w0) - CurrentFrameStartTime w0) + (t3 - t2) /\
     (clock (reads w0) = CurrentFrameStartTime w0 -> t3 = t2 ->
      fst (I_NSTime clock w') = fst (I_NSTime clock w0))).
Proof.
  intros t2 t3 Hfz HF HZ Ht Hsum Hne w'.
  assert (E0 : w' = I_SetFrameTime clock
                      (mkWorld (FirstFrameStartTime w + (t2 - FreezeTime w))
                               (CurrentFrameStartTime w) 0 (S (reads w)) (sleeps w))).
  { unfold w'. rewrite I_FreezeTime_false. fold t2.
    rewrite (to_uint64_small t2) by lia.
    rewrite (to_uint64_small (t2 - FreezeTime w)) by lia.
    rewrite to_uint64_small by lia. reflexivity. }
  assert (E : w' = mkWorld (FirstFrameStartTime w + (t2 - FreezeTime w)) t3 0
                           (S (S (reads w))) (sleeps w)).
  { rewrite E0, I_SetFrameTime_unfrozen by reflexivity.
    cbn [FirstFrameStartTime reads sleeps]. fold t3.
    rewrite (to_uint64_small t3) by lia.
    destruct (FirstFrameStartTime w + (t2 - FreezeTime w) =? 0) eqn:Eq;
      [apply Z.eqb_eq in Eq; contradiction | reflexivity]. }
  split; [exact E0|].
  rewrite E. cbn [FirstFrameStartTime CurrentFrameStartTime FreezeTime].
  split; [reflexivity|]. split; [reflexivity|]. split; [reflexivity|].
  intros w0 Hz0 HFC0 HC0 Hvars.
  rewrite I_FreezeTime_true in Hvars. unfold timer_vars in Hvars.
  cbn [FirstFrameStartTime CurrentFrameStartTime FreezeTime] in Hvars.
  rewrite (to_uint64_small (clock (reads w0))) in Hvars by lia.
  injection Hvars as EF EC EZ.
  assert (Eafter : fst (I_NSTime clock
                          (mkWorld (FirstFrameStartTime w + (t2 - FreezeTime w)) t3 0
                                   (S (S (reads w))) (sleeps w)))
                   = t3 - (FirstFrameStartTime w + (t2 - FreezeTime w))).
  { unfold I_NSTime. cbn [FirstFrameStartTime CurrentFrameStartTime FreezeTime].
    simpl. apply to_uint64_small. lia. }
  assert (Ebefore : fst (I_NSTime clock w0)
                    = CurrentFrameStartTime w0 - FirstFrameStartTime w0).
  { unfold I_NSTime. rewrite Hz0. simpl. apply to_uint64_small. lia. }
  rewrite Eafter, Ebefore. split; [lia|]. intros H1 H2. lia.
Qed.

Lemma C3_unfreeze_excises_witness :
  let clock := clock_of_list [1000; 2000; 2000; 9000; 9000] in
  let w0 := snapshots clock 2 initial in
  let w := I_FreezeTime clock true w0 in
  FirstFrameStartTime (I_FreezeTime clock false w) = 1000 + (9000 - 2000) /\
  fst (I_NSTime clock (I_FreezeTime clock false w)) = fst (I_NSTime clock w0).
Proof.
  intros clock w0 w.
  assert (H1 : FreezeTime w <> 0) by (vm_compute; discriminate).
  assert (H2 : 0 <= FirstFrameStartTime w) by (vm_compute; discriminate).
  assert (H3 : 0 <= FreezeTime w <= clock (reads w))
    by (vm_compute; split; discriminate).
  assert (H4 : clock (reads w) <= clock (S (reads w)) < 2 ^ 64)
    by (vm_compute; split; [discriminate | reflexivity]).
  assert (H5 : FirstFrameStartTime w + (clock (reads w) - FreezeTime w) < 2 ^ 64)
    by (vm_compute; reflexivity).
  assert (H6 : FirstFrameStartTime w + (clock (reads w) - FreezeTime w) <> 0)
    by (vm_compute; discriminate).
  destruct (C3_unfreeze_excises clock w H1 H2 H3 H4 H5 H6) as [_ [EF [_ [_ Hrun]]]].
  split; [exact EF|].
  assert (G1 : FreezeTime w0 = 0) by (vm_compute; reflexivity).
  assert (G2 : 0 <= FirstFrameStartTime w0 <= CurrentFrameStartTime w0)
    by (vm_compute; split; discriminate).
  assert (G3 : CurrentFrameStartTime w0 <= clock (reads w0) < 2 ^ 64)
    by (vm_compute; split; [discriminate | reflexivity]).
  destruct (Hrun w0 G1 G2 G3 eq_refl) as [_ Hsame].
  apply Hsame; vm_compute; reflexivity.
Defined.

(** ** Waiting for a tic *)

Section Waiting.

Variable TICRATE : Z.
Variable clock : nat -> Z.

Lemma same_timer_refl (w : world) : same_timer w w.
Proof. now repeat split. Qed.

Lemma same_timer_trans (w1 w2 w3 : world) :
  same_timer w1 w2 -> same_timer w2 w3 -> same_timer w1 w3.
Proof.
  intros (A1 & A2 & A3 & A4) (B1 & B2 & B3 & B4).
  repeat split; congruence.
Qed.

Lemma same_timer_sleep_for (ms : Z) (w : world) : same_timer (sleep_for ms w) w.
Proof. now repeat split. Qed.

Lemma same_timer_I_GetTime (w1 w2 : world) :
  same_timer w1 w2 -> I_GetTime TICRATE w1 = I_GetTime TICRATE w2.
Proof.
  intros (A1 & A2 & _). unfold I_GetTime. now rewrite A1, A2.
Qed.

Lemma same_timer_I_SetFrameTime (w1 w2 : world) :
  same_timer w1 w2 ->
  same_timer (I_SetFrameTime clock w1) (I_SetFrameTime clock w2).
Proof.
  intros (A1 & A2 & A3 & A4).
  unfold I_SetFrameTime, GetClockTimeNS, set_Current, set_First.
  rewrite A3. destruct (FreezeTime w2 =? 0); [|now repeat split].
  cbn [FirstFrameStartTime CurrentFrameStartTime]. rewrite A1, A4.
  destruct (FirstFrameStartTime w2 =? 0); now repeat split.
Qed.

Lemma same_timer_wait_body (prevtic time : Z) (w : world) :
  same_timer (wait_body clock prevtic time w) (I_SetFrameTime clock w).
Proof.
  unfold wait_body. apply same_timer_I_SetFrameTime.
  destruct (2 <? to_int (prevtic - time)).
  - apply same_timer_sleep_for.
  - apply same_timer_refl.
Qed.

Lemma same_timer_snapshots (n : nat) (w1 w2 : world) :
  same_timer w1 w2 -> same_timer (snapshots clock n w1) (snapshots clock n w2).
Proof.
  revert w1 w2. induction n as [|n IH]; intros w1 w2 H; [exact H|].
  simpl. apply IH, same_timer_I_SetFrameTime, H.
Qed.

(** The first index at which a sequence exceeds a bound. *)
Lemma first_above (g : nat -> Z) (p : Z) (n : nat) :
  (forall k, (k < n)%nat -> g k <= p) \/
  (exists m, (m < n)%nat /\ p < g m /\ forall k, (k < m)%nat -> g k <= p).
Proof.
  induction n as [|n [IH|IH]].
  - left. intros k Hk. lia.
  - destruct (Z_le_gt_dec (g n) p) as [Hle|Hgt].
    + left. intros k Hk. destruct (Nat.eq_dec k n) as [->|Hn]; [exact Hle|].
      apply IH. lia.
    + right. exists n. repeat split; [lia | lia | exact IH].
  - right. destruct IH as (m & Hm & Hp & Hk). exists m. repeat split; [lia | exact Hp | exact Hk].
Qed.

(** The loop returns the tic of the first snapshot that is past [prevtic]. *)
Lemma I_WaitForTic_returns (prevtic : Z) (m : nat) (w w0 : world) :
  same_timer w w0 ->
  (forall k, (k < m)%nat -> I_GetTime TICRATE (snapshots clock k w0) <= prevtic) ->
  prevtic < I_GetTime TICRATE (snapshots clock m w0) ->
  exists w', same_timer w' (snapshots clock m w0) /\
    forall fuel, (m < fuel)%nat ->
    I_WaitForTic TICRATE clock fuel prevtic w
    = Some (I_GetTime TICRATE (snapshots clock m w0), w').
Proof.
  revert w w0. induction m as [|m IH]; intros w w0 Hs Hbelow Habove.
  - exists w. split; [exact Hs|].
    intros fuel Hf. destruct fuel as [|fuel]; [lia|].
    simpl in Habove |- *. rewrite (same_timer_I_GetTime w w0 Hs).
    destruct (I_GetTime TICRATE w0 <=? prevtic) eqn:E; [|reflexivity].
    apply Z.leb_le in E. lia.
  - assert (H0 : I_GetTime TICRATE w <= prevtic).
    { rewrite (same_timer_I_GetTime w w0 Hs). apply (Hbelow O). lia. }
    destruct (IH (wait_body clock prevtic (I_GetTime TICRATE w) w)
                 (I_SetFrameTime clock w0)) as (w' & Hs' & Hrun).
    + eapply same_timer_trans; [apply same_timer_wait_body|].
      apply same_timer_I_SetFrameTime, Hs.
    + intros k Hk. apply (Hbelow (S k)). lia.
    + exact Habove.
    + exists w'. split; [exact Hs'|].
      intros fuel Hf. destruct fuel as [|fuel]; [lia|].
      cbn [I_WaitForTic snapshots].
      apply Z.leb_le in H0. rewrite H0. apply Hrun. lia.
Qed.

(** With time running and the first frame set, the [n+1]-th snapshot stores
    the [n]-th next reading of the clock. *)
Lemma snapshots_unfrozen (n : nat) (w : world) :
  clock_in_range clock ->
  FreezeTime w = 0 -> FirstFrameStartTime w <> 0 ->
  snapshots clock (S n) w
  = mkWorld (FirstFrameStartTime w) (clock (reads w + n)) 0
            (S (reads w + n)) (sleeps w).
Proof.
  intros Hr. revert w. induction n as [|n IH]; intros w Hz HF.
  - simpl. rewrite I_SetFrameTime_unfrozen by exact Hz.
    apply Z.eqb_neq in HF. rewrite HF, Nat.add_0_r.
    now rewrite to_uint64_small by apply Hr.
  - change (snapshots clock (S (S n)) w)
      with (snapshots clock (S n) (I_SetFrameTime clock w)).
    rewrite IH.
    + rewrite I_SetFrameTime_unfrozen by exact Hz.
      apply Z.eqb_neq in HF. rewrite HF.
      cbn [FirstFrameStartTime reads sleeps].
      now replace (S (reads w) + n)%nat with (reads w + S n)%nat by lia.
    + rewrite I_SetFrameTime_unfrozen by exact Hz. reflexivity.
    + rewrite I_SetFrameTime_unfrozen by exact Hz.
      apply Z.eqb_neq in HF. rewrite HF. cbn [FirstFrameStartTime].
      now apply Z.eqb_neq.
Qed.

(** A clock that advances: some later reading is in a tic past [prevtic]. *)
Lemma clock_advances_snapshots (prevtic : Z) (w : world) (i : nat) :
  clock_in_range clock ->
  FreezeTime w = 0 -> FirstFrameStartTime w <> 0 ->
  (reads w <= i)%nat ->
  prevtic < I_GetTime TICRATE (set_Current (clock i) w) ->
  exists n, prevtic < I_GetTime TICRATE (snapshots clock n w).
Proof.
  intros Hr Hz HF Hi Hp.
  exists (S (i - reads w)).
  rewrite snapshots_unfrozen by assumption.
  replace (reads w + (i - reads w))%nat with i by lia.
  exact Hp.
Qed.

End Waiting.

(** C6: called when [I_GetTime] is already past [prevtic], [I_WaitForTic]
    returns that tic at once: the state, the count of clock reads and the
    log of sleeps are what they were.  In general, when some snapshot of the
    clock brings the tic past [prevtic], the loop returns, and what it
    returns is the tic of the first snapshot that is past [prevtic], every
    tic it saw before being at most [prevtic]. *)
Theorem C6_I_WaitForTic (TICRATE : Z) (clock : nat -> Z) (prevtic : Z) (w : world) :
  (exists n, prevtic < I_GetTime TICRATE (snapshots clock n w)) ->
  (prevtic < I_GetTime TICRATE w ->
   forall fuel, I_WaitForTic TICRATE clock (S fuel) prevtic w
                = Some (I_GetTime TICRATE w, w)) /\
  exists (m : nat) (w' : world),
    (forall k, (k < m)%nat -> I_GetTime TICRATE (snapshots clock k w) <= prevtic) /\
    prevtic < I_GetTime TICRATE (snapshots clock m w) /\
    same_timer w' (snapshots clock m w) /\
    forall fuel, (m < fuel)%nat ->
      I_WaitForTic TICRATE clock fuel prevtic w
      = Some (I_GetTime TICRATE (snapshots clock m w), w').
Proof.
  intros [n Hn]. split.
  - intros Hp fuel. simpl.
    destruct (I_GetTime TICRATE w <=? prevtic) eqn:E; [|reflexivity].
    apply Z.leb_le in E. lia.
  - destruct (first_above (fun k => I_GetTime TICRATE (snapshots clock k w))
                          prevtic (S n)) as [Hall|(m & Hm & Hp & Hk)].
    + specialize (Hall n ltac:(lia)). simpl in Hall. lia.
    + destruct (I_WaitForTic_returns TICRATE clock prevtic m w w
                  (same_timer_refl w) Hk Hp) as (w' & Hs & Hrun).
      exists m, w'. repeat split; try assumption; apply Hs.
Qed.

Lemma C6_I_WaitForTic_witness :
  let clock := clock_of_list [1000; 10001000; 28572429] in
  let w := snapshots clock 1 initial in
  exists w', I_WaitForTic TICRATE_doom clock 5 1 w = Some (2, w') /\
             CurrentFrameStartTime w' = 28572429.
Proof.
  intros clock w.
  assert (Hadv : exists n, 1 < I_GetTime TICRATE_doom (snapshots clock n w)).
  { apply (clock_advances_snapshots TICRATE_doom clock 1 w 2).
    - apply clock_of_list_in_range. repeat constructor; zconst; lia.
    - reflexivity.
    - vm_compute. discriminate.
    - vm_compute. lia.
    - vm_compute. reflexivity. }
  destruct (C6_I_WaitForTic TICRATE_doom clock 1 w Hadv)
    as [_ (m & w' & Hk & Hp & Hs & Hrun)].
  assert (Em : m = 2%nat).
  { destruct m as [|[|[|m]]].
    - vm_compute in Hp. discriminate.
    - vm_compute in Hp. discriminate.
    - reflexivity.
    - specialize (Hk 2%nat ltac:(lia)). vm_compute in Hk. congruence. }
  subst m. exists w'. split.
  - rewrite (Hrun 5%nat ltac:(lia)). reflexivity.
  - destruct Hs as (_ & -> & _). reflexivity.
Defined.

(** ** The order of the two frame times *)

Section Invariant.

Variable TICRATE : Z.
Variable clock : nat -> Z.
Hypothesis clock_mono : clock_monotone clock.
Hypothesis clock_range : clock_in_range clock.

Lemma frames_ok_read (w : world) :
  frames_ok clock w ->
  frames_ok clock (mkWorld (FirstFrameStartTime w) (CurrentFrameStartTime w)
                     (FreezeTime w) (S (reads w)) (sleeps w)).
Proof.
  intros (Hb & Ho & H0 & HC & HZ & HZC).
  pose proof (clock_mono (reads w) (S (reads w)) ltac:(lia)) as Hn.
  unfold frames_ok, both_set, frames_ordered, timestamps_past in *.
  cbn [FirstFrameStartTime CurrentFrameStartTime FreezeTime reads].
  repeat split; try tauto; lia.
Qed.

Lemma frames_ok_sleep_for (ms : Z) (w : world) :
  frames_ok clock w -> frames_ok clock (sleep_for ms w).
Proof. intros H. exact H. Qed.

Lemma frames_ok_I_SetFrameTime (w : world) :
  frames_ok clock w -> frames_ok clock (I_SetFrameTime clock w).
Proof.
  intros Hok. destruct (Z.eq_dec (FreezeTime w) 0) as [Hz|Hz].
  - destruct Hok as ((HF & HC0) & Ho & H0 & HC & HZ & HZC).
    rewrite I_SetFrameTime_unfrozen by exact Hz.
    rewrite to_uint64_small by apply clock_range.
    pose proof (clock_mono (reads w) (S (reads w)) ltac:(lia)) as Hn.
    pose proof (clock_range (S (reads w))) as Hr.
    apply Z.eqb_neq in HF. rewrite HF. apply Z.eqb_neq in HF.
    unfold frames_ok, both_set, frames_ordered, timestamps_past in *.
    cbn [FirstFrameStartTime CurrentFrameStartTime FreezeTime reads].
    repeat split; lia.
  - now rewrite I_SetFrameTime_frozen by exact Hz.
Qed.

Lemma frames_ok_wait_body (prevtic time : Z) (w : world) :
  frames_ok clock w -> frames_ok clock (wait_body clock prevtic time w).
Proof.
  intros Hok. unfold wait_body. apply frames_ok_I_SetFrameTime.
  destruct (2 <? to_int (prevtic - time)); [apply frames_ok_sleep_for|]; exact Hok.
Qed.

Lemma frames_ok_I_WaitForTic (fuel : nat) (prevtic t : Z) (w w' : world) :
  frames_ok clock w ->
  I_WaitForTic TICRATE clock fuel prevtic w = Some (t, w') ->
  frames_ok clock w'.
Proof.
  revert w. induction fuel as [|fuel IH]; intros w Hok Hrun; [discriminate|].
  simpl in Hrun.
  destruct (I_GetTime TICRATE w <=? prevtic).
  - apply IH in Hrun; [exact Hrun|]. now apply frames_ok_wait_body.
  - now injection Hrun as _ <-.
Qed.

Lemma frames_ok_I_NSTime (w : world) :
  frames_ok clock w -> frames_ok clock (snd (I_NSTime clock w)).
Proof.
  intros Hok. unfold I_NSTime.
  destruct (FreezeTime w =? 0); [exact Hok|].
  pose proof Hok as ((HF & _) & _).
  apply Z.eqb_neq in HF. rewrite HF.
  apply frames_ok_read. exact Hok.
Qed.

Lemma frames_ok_I_FPSTimeNS (w : world) :
  frames_ok clock w -> frames_ok clock (snd (I_FPSTimeNS clock w)).
Proof.
  intros Hok. unfold I_FPSTimeNS.
  destruct (FreezeTime w =? 0); [exact Hok|].
  now apply frames_ok_read.
Qed.

Lemma frames_ok_I_FreezeTime_true (w : world) :
  frames_ok clock w -> frames_ok clock (I_FreezeTime clock true w).
Proof.
  intros ((HF & HC0) & Ho & H0 & HC & HZ & HZC).
  rewrite I_FreezeTime_true.
  rewrite to_uint64_small by apply clock_range.
  pose proof (clock_mono (reads w) (S (reads w)) ltac:(lia)) as Hn.
  pose proof (clock_range (reads w)) as Hr.
  unfold frames_ok, both_set, frames_ordered, timestamps_past in *.
  cbn [FirstFrameStartTime CurrentFrameStartTime FreezeTime reads].
  repeat split; lia.
Qed.

Lemma frames_ok_I_FreezeTime_false (w : world) :
  FreezeTime w <> 0 ->
  frames_ok clock w -> frames_ok clock (I_FreezeTime clock false w).
Proof.
  intros Hz ((HF & HC0) & Ho & H0 & HC & HZ & HZC).
  specialize (HZC Hz).
  pose proof (clock_mono (reads w) (S (reads w)) ltac:(lia)) as Hn.
  pose proof (clock_range (reads w)) as Hr.
  unfold frames_ordered in Ho.
  rewrite I_FreezeTime_false.
  rewrite (to_uint64_small (clock (reads w))) by exact Hr.
  rewrite (to_uint64_small (clock (reads w) - FreezeTime w)) by lia.
  rewrite to_uint64_small by lia.
  rewrite I_SetFrameTime_unfrozen by reflexivity.
  cbn [FirstFrameStartTime reads sleeps].
  rewrite to_uint64_small by apply clock_range.
  pose proof (clock_mono (S (reads w)) (S (S (reads w))) ltac:(lia)) as Hn2.
  pose proof (clock_range (S (S (reads w)))) as Hr2.
  assert (HF' : FirstFrameStartTime w + (clock (reads w) - FreezeTime w) <> 0) by lia.
  apply Z.eqb_neq in HF'. rewrite HF'. apply Z.eqb_neq in HF'.
  unfold frames_ok, both_set, frames_ordered, timestamps_past.
  cbn [FirstFrameStartTime CurrentFrameStartTime FreezeTime reads].
  repeat split; lia.
Qed.

Lemma frames_ok_step (w w' : world) (o : op) :
  frames_ok clock w -> matched o w -> step TICRATE clock w o w' -> frames_ok clock w'.
Proof.
  intros Hok Hm Hstep. destruct Hstep.
  - now apply frames_ok_I_SetFrameTime.
  - unfold I_WaitVBL. now apply frames_ok_I_SetFrameTime, frames_ok_sleep_for.
  - eapply frames_ok_I_WaitForTic; eassumption.
  - now apply frames_ok_I_NSTime.
  - now apply frames_ok_I_FPSTimeNS.
  - unfold I_MSTime. pose proof (frames_ok_I_NSTime w Hok) as H.
    destruct (I_NSTime clock w). exact H.
  - unfold I_FPSTime. pose proof (frames_ok_I_FPSTimeNS w Hok) as H.
    destruct (I_FPSTimeNS clock w). exact H.
  - exact Hok.
  - exact Hok.
  - destruct frozen.
    + now apply frames_ok_I_FreezeTime_true.
    + now apply frames_ok_I_FreezeTime_false.
Qed.

End Invariant.

(** C8, as stated, fails for an unfreeze that no freeze precedes: with both
    frames set and in order (first frame 1000, current frame 2000, not
    frozen), [I_FreezeTime(false)] at clock reading 3000 moves the first
    frame to 4000 and the current frame to 3000. *)
Lemma C8_counterexample :
  let clock := clock_of_list [1000; 2000; 3000; 3000] in
  let w := snapshots clock 2 initial in
  let w' := I_FreezeTime clock false w in
  clock_monotone clock /\
  both_set w /\ frames_ordered w /\
  step TICRATE_doom clock w (Freeze false) w' /\
  timer_vars w' = (4000, 3000, 0) /\
  ~ frames_ordered w'.
Proof.
  intros clock w w'.
  split; [|split; [|split; [|split; [|split]]]].
  - apply clock_of_list_monotone. repeat constructor; lia.
  - vm_compute. split; discriminate.
  - vm_compute. discriminate.
  - apply step_Freeze.
  - vm_compute. reflexivity.
  - vm_compute. intros H. apply H. reflexivity.
Qed.

(** C8 (amended): with a clock that never goes back, once both frame times
    are set, in order, and the stored times are past readings of that clock,
    every call of the timer except [I_FreezeTime(false)] made while not
    frozen leaves them set, in order (CurrentFrameStartTime >=
    FirstFrameStartTime) and past. *)
Theorem C8_frames_ordered_preserved
    (TICRATE : Z) (clock : nat -> Z) (w w' : world) (o : op) :
  clock_monotone clock ->
  clock_in_range clock ->
  both_set w ->
  frames_ordered w ->
  timestamps_past clock w ->
  matched o w ->
  step TICRATE clock w o w' ->
  both_set w' /\ frames_ordered w' /\ timestamps_past clock w'.
Proof.
  intros Hm Hr Hb Ho Hp Hmatch Hstep.
  exact (frames_ok_step TICRATE clock Hm Hr w w' o
           (conj Hb (conj Ho Hp)) Hmatch Hstep).
Qed.

Lemma C8_frames_ordered_preserved_witness :
  let clock := clock_of_list [1000; 2000; 2500; 9000; 9001] in
  let w := I_FreezeTime clock true (snapshots clock 2 initial) in
  frames_ordered (I_FreezeTime clock false w) /\
  timer_vars (I_FreezeTime clock false w) = (7500, 9001, 0).
Proof.
  intros clock w. split; [|vm_compute; reflexivity].
  assert (Hm : clock_monotone clock)
    by (apply clock_of_list_monotone; repeat constructor; lia).
  assert (Hr : clock_in_range clock)
    by (apply clock_of_list_in_range; repeat constructor; zconst; lia).
  assert (Hb : both_set w) by (vm_compute; split; discriminate).
  assert (Ho : frames_ordered w) by (vm_compute; discriminate).
  assert (Hp : timestamps_past clock w).
  { vm_compute. repeat split; intros; discriminate. }
  assert (Hmatch : matched (Freeze false) w) by (vm_compute; discriminate).
  exact (proj1 (proj2 (C8_frames_ordered_preserved TICRATE_doom clock w _ (Freeze false)
                         Hm Hr Hb Ho Hp Hmatch (step_Freeze _ _ w false)))).
Defined.

(** * Further properties of the timer *)

(** ** Unit conversions *)

(** X1: a millisecond count that fits [unsigned int] goes to nanoseconds
    without overflow and comes back unchanged. *)
Theorem X1_MSToNS_NSToMS (ms : Z) :
  0 <= ms < 2 ^ 32 ->
  MSToNS ms = ms * 1000000 /\ NSToMS (MSToNS ms) = ms.
Proof.
  intros H. unfold MSToNS, NSToMS.
  rewrite (to_uint32_small ms) by exact H.
  rewrite to_uint64_small by (zconst; lia).
  split; [reflexivity|].
  rewrite Z.div_mul by lia. now apply to_uint32_small.
Qed.

Lemma X1_MSToNS_NSToMS_witness :
  MSToNS 4294967295 = 4294967295000000 /\ NSToMS (MSToNS 4294967295) = 4294967295.
Proof.
  apply (X1_MSToNS_NSToMS 4294967295). split; [discriminate | reflexivity].
Defined.

(** X2: the start of a tic, taken back to a tic, is that tic or the one
    before: [TicToNS] rounds down, so the start it gives belongs to the
    previous tic unless TICRATE divides tic * 10^9. *)
Theorem X2_NSToTic_TicToNS (TICRATE tic : Z) :
  0 < TICRATE <= 1000000000 ->
  0 <= tic < INT_MAX ->
  tic - 1 <= NSToTic TICRATE (TicToNS TICRATE tic) <= tic /\
  (NSToTic TICRATE (TicToNS TICRATE tic) = tic
   <-> (tic * 1000000000) mod TICRATE = 0).
Proof.
  intros HT Htic.
  assert (HT' : 0 < TICRATE < 2 ^ 64) by (zconst; lia).
  rewrite TicToNS_exact by (zconst; lia).
  set (n := tic * 1000000000 / TICRATE).
  assert (Hn0 : 0 <= n) by (apply Z.div_pos; lia).
  assert (Hlo : n * TICRATE <= tic * 1000000000).
  { unfold n. rewrite Z.mul_comm. apply Z.mul_div_le. lia. }
  assert (Hhi : tic * 1000000000 < n * TICRATE + TICRATE).
  { unfold n. pose proof (Z.mul_succ_div_gt (tic * 1000000000) TICRATE). lia. }
  assert (Hr : tic_in_range TICRATE n) by (split; [exact Hn0 | zconst; lia]).
  destruct (NSToTic_exact TICRATE n HT' Hr) as [-> _].
  assert (Hup : n * TICRATE / 1000000000 <= tic).
  { apply Z.div_le_upper_bound; lia. }
  assert (Hdown : tic - 1 <= n * TICRATE / 1000000000).
  { apply Z.div_le_lower_bound; lia. }
  split; [lia|]. split.
  - intros E.
    assert (Hge : tic * 1000000000 <= n * TICRATE).
    { rewrite <- E at 1. rewrite Z.mul_comm. apply Z.mul_div_le. lia. }
    assert (Eq : tic * 1000000000 = n * TICRATE) by lia.
    rewrite Eq. apply Z.mod_mul. lia.
  - intros Hm.
    assert (Eq : tic * 1000000000 = TICRATE * n).
    { unfold n. apply Z.div_exact; lia. }
    rewrite Z.mul_comm, <- Eq. apply Z.div_mul. lia.
Qed.

Lemma X2_NSToTic_TicToNS_witness :
  NSToTic TICRATE_doom (TicToNS TICRATE_doom 1) = 0 /\
  NSToTic TICRATE_doom (TicToNS TICRATE_doom 7) = 7.
Proof.
  assert (HT : 0 < TICRATE_doom <= 1000000000) by (split; [reflexivity | discriminate]).
  split.
  - destruct (X2_NSToTic_TicToNS TICRATE_doom 1 HT) as [[Hlo Hhi] Hiff].
    { split; [discriminate | reflexivity]. }
    destruct (Z.eq_dec (NSToTic TICRATE_doom (TicToNS TICRATE_doom 1)) 1) as [E|N].
    + apply Hiff in E. vm_compute in E. discriminate.
    + lia.
  - destruct (X2_NSToTic_TicToNS TICRATE_doom 7 HT) as [_ Hiff].
    { split; [discriminate | reflexivity]. }
    apply Hiff. reflexivity.
Defined.



(** ** More on waiting for a tic *)

Section WaitingMore.

Variable TICRATE : Z.
Variable clock : nat -> Z.

Lemma I_SetFrameTime_keeps (w : world) :
  FreezeTime (I_SetFrameTime clock w) = FreezeTime w /\
  sleeps (I_SetFrameTime clock w) = sleeps w /\
  reads (I_SetFrameTime clock w)
  = (if FreezeTime w =? 0 then S (reads w) else reads w).
Proof.
  destruct (Z.eq_dec (FreezeTime w) 0) as [Hz|Hz].
  - rewrite I_SetFrameTime_unfrozen by exact Hz. rewrite Hz. now repeat split.
  - rewrite I_SetFrameTime_frozen by exact Hz.
    apply Z.eqb_neq in Hz. rewrite Hz. now repeat split.
Qed.

Lemma wait_body_keeps (prevtic time : Z) (w : world) :
  FreezeTime (wait_body clock prevtic time w) = FreezeTime w /\
  reads (wait_body clock prevtic time w)
  = (if FreezeTime w =? 0 then S (reads w) else reads w) /\
  (sleeps (wait_body clock prevtic time w) = sleeps w \/
   exists ms, 0 < ms /\ sleeps (wait_body clock prevtic time w) = ms :: sleeps w).
Proof.
  unfold wait_body.
  destruct (2 <? to_int (prevtic - time)) eqn:E.
  - destruct (I_SetFrameTime_keeps (sleep_for (to_int (prevtic - time) - 2) w))
      as (H1 & H2 & H3).
    rewrite H1, H2, H3. cbn [sleep_for FreezeTime reads sleeps].
    split; [reflexivity|]. split; [reflexivity|].
    right. exists (to_int (prevtic - time) - 2).
    apply Z.ltb_lt in E. split; [lia | reflexivity].
  - destruct (I_SetFrameTime_keeps w) as (H1 & H2 & H3).
    rewrite H1, H2, H3. split; [reflexivity|]. split; [reflexivity|]. now left.
Qed.

Lemma I_WaitForTic_frozen_None (fuel : nat) (prevtic : Z) (w : world) :
  FreezeTime w <> 0 -> I_GetTime TICRATE w <= prevtic ->
  I_WaitForTic TICRATE clock fuel prevtic w = None.
Proof.
  revert w. induction fuel as [|fuel IH]; intros w Hz Hle; [reflexivity|].
  simpl. apply Z.leb_le in Hle. rewrite Hle. apply Z.leb_le in Hle.
  assert (Hs : same_timer (wait_body clock prevtic (I_GetTime TICRATE w) w) w).
  { eapply same_timer_trans; [apply same_timer_wait_body|].
    rewrite I_SetFrameTime_frozen by exact Hz. apply same_timer_refl. }
  apply IH.
  - destruct Hs as (_ & _ & -> & _). exact Hz.
  - rewrite (same_timer_I_GetTime TICRATE _ _ Hs). exact Hle.
Qed.

Lemma I_WaitForTic_result (fuel : nat) (prevtic t : Z) (w w' : world) :
  I_WaitForTic TICRATE clock fuel prevtic w = Some (t, w') ->
  prevtic < t /\ t = I_GetTime TICRATE w' /\
  FreezeTime w' = FreezeTime w /\
  (reads w <= reads w')%nat /\
  exists l, sleeps w' = l ++ sleeps w /\
            Forall (fun ms => 0 < ms) l /\
            (length l <= reads w' - reads w)%nat.
Proof.
  revert w. induction fuel as [|fuel IH]; intros w Hrun; [discriminate|].
  simpl in Hrun.
  destruct (I_GetTime TICRATE w <=? prevtic) eqn:E.
  - destruct (Z.eq_dec (FreezeTime w) 0) as [Hz|Hz].
    + apply IH in Hrun. destruct Hrun as (Hp & Ht & HZ & Hr & l & Hl & Hpos & Hlen).
      destruct (wait_body_keeps prevtic (I_GetTime TICRATE w) w) as (K1 & K2 & K3).
      rewrite Hz in K2. simpl in K2.
      split; [exact Hp|]. split; [exact Ht|]. split; [congruence|].
      split; [lia|].
      destruct K3 as [K3|(ms & Hms & K3)].
      * exists l. rewrite Hl, K3. split; [reflexivity|]. split; [exact Hpos | lia].
      * exists (l ++ [ms]). rewrite Hl, K3, <- app_assoc. split; [reflexivity|].
        split.
        -- apply Forall_app. split; [exact Hpos | now constructor].
        -- rewrite length_app. simpl. lia.
    + apply Z.leb_le in E.
      assert (Hs : same_timer (wait_body clock prevtic (I_GetTime TICRATE w) w) w).
      { eapply same_timer_trans; [apply same_timer_wait_body|].
        rewrite I_SetFrameTime_frozen by exact Hz. apply same_timer_refl. }
      rewrite I_WaitForTic_frozen_None in Hrun; [discriminate| |].
      * destruct Hs as (_ & _ & -> & _). exact Hz.
      * rewrite (same_timer_I_GetTime TICRATE _ _ Hs). exact E.
  - injection Hrun as <- <-. apply Z.leb_gt in E.
    split; [exact E|]. split; [reflexivity|]. split; [reflexivity|].
    split; [lia|]. exists []. split; [reflexivity|]. split; [constructor | simpl; lia].
Qed.

End WaitingMore.

(** X4: with time frozen and the tic not yet past [prevtic], the loop of
    [I_WaitForTic] never ends: no amount of fuel makes it return, whatever
    the clock does. *)
Theorem X4_I_WaitForTic_frozen_never_returns
    (TICRATE : Z) (clock : nat -> Z) (prevtic : Z) (w : world) :
  FreezeTime w <> 0 ->
  I_GetTime TICRATE w <= prevtic ->
  forall fuel, I_WaitForTic TICRATE clock fuel prevtic w = None.
Proof.
  intros Hz Hle fuel. now apply I_WaitForTic_frozen_None.
Qed.

Lemma X4_I_WaitForTic_frozen_never_returns_witness :
  I_WaitForTic TICRATE_doom (clock_of_list [5000; 90000000000]) 50 1
               (mkWorld 1000 2000 3000 0 []) = None.
Proof.
  apply X4_I_WaitForTic_frozen_never_returns.
  - simpl. discriminate.
  - vm_compute. discriminate.
Defined.

(** X5: whenever [I_WaitForTic] returns, the tic it returns is past
    [prevtic] and is the tic of the state it leaves; FreezeTime is as it
    was; every sleep it made lasted at least 1 ms; and it slept at most once
    per clock reading it took. *)
Theorem X5_I_WaitForTic_result
    (TICRATE : Z) (clock : nat -> Z) (fuel : nat) (prevtic t : Z) (w w' : world) :
  I_WaitForTic TICRATE clock fuel prevtic w = Some (t, w') ->
  prevtic < t /\ t = I_GetTime TICRATE w' /\
  FreezeTime w' = FreezeTime w /\
  (reads w <= reads w')%nat /\
  exists l, sleeps w' = l ++ sleeps w /\
            Forall (fun ms => 0 < ms) l /\
            (length l <= reads w' - reads w)%nat.
Proof. apply I_WaitForTic_result. Qed.

Lemma X5_I_WaitForTic_result_witness :
  let clock := clock_of_list [1000; 1001; 200000000] in
  let w := snapshots clock 1 initial in
  exists t w', I_WaitForTic TICRATE_doom clock 9 5 w = Some (t, w') /\
               5 < t /\ t = I_GetTime TICRATE_doom w' /\
               exists l, sleeps w' = l ++ sleeps w /\ Forall (fun ms => 0 < ms) l.
Proof.
  intros clock w.
  destruct (I_WaitForTic TICRATE_doom clock 9 5 w) as [[t w']|] eqn:E;
    [|vm_compute in E; discriminate].
  destruct (X5_I_WaitForTic_result TICRATE_doom clock 9 5 t w w' E)
    as (Hp & Ht & _ & _ & l & Hl & Hpos & _).
  exists t, w'. split; [reflexivity|]. split; [exact Hp|]. split; [exact Ht|].
  exists l. split; assumption.
Defined.

(** ** What the calls leave alone *)

Section Frames.

Variable TICRATE : Z.
Variable clock : nat -> Z.

Lemma query_unfrozen (w w' : world) (o : op) :
  FreezeTime w = 0 -> is_query o = true -> step TICRATE clock w o w' -> w' = w.
Proof.
  intros Hz Hq Hstep. destruct Hstep; try discriminate Hq; try reflexivity.
  - unfold I_NSTime. now rewrite Hz.
  - unfold I_FPSTimeNS. now rewrite Hz.
  - unfold I_MSTime, I_NSTime. now rewrite Hz.
  - unfold I_FPSTime, I_FPSTimeNS. now rewrite Hz.
Qed.

Lemma I_SetFrameTime_First (w : world) :
  FirstFrameStartTime w <> 0 ->
  FirstFrameStartTime (I_SetFrameTime clock w) = FirstFrameStartTime w.
Proof.
  intros HF. destruct (Z.eq_dec (FreezeTime w) 0) as [Hz|Hz].
  - rewrite I_SetFrameTime_unfrozen by exact Hz.
    apply Z.eqb_neq in HF. now rewrite HF.
  - now rewrite I_SetFrameTime_frozen.
Qed.

Lemma I_WaitForTic_First (fuel : nat) (prevtic t : Z) (w w' : world) :
  FirstFrameStartTime w <> 0 ->
  I_WaitForTic TICRATE clock fuel prevtic w = Some (t, w') ->
  FirstFrameStartTime w' = FirstFrameStartTime w.
Proof.
  revert w. induction fuel as [|fuel IH]; intros w HF Hrun; [discriminate|].
  simpl in Hrun. destruct (I_GetTime TICRATE w <=? prevtic).
  - assert (E : FirstFrameStartTime (wait_body clock prevtic (I_GetTime TICRATE w) w)
                = FirstFrameStartTime w).
    { unfold wait_body.
      destruct (2 <? to_int (prevtic - I_GetTime TICRATE w));
        now rewrite I_SetFrameTime_First. }
    apply IH in Hrun; [congruence|]. now rewrite E.
  - now injection Hrun as _ <-.
Qed.

Lemma I_NSTime_First (w : world) :
  FirstFrameStartTime w <> 0 ->
  FirstFrameStartTime (snd (I_NSTime clock w)) = FirstFrameStartTime w.
Proof.
  intros HF. unfold I_NSTime. destruct (FreezeTime w =? 0); [reflexivity|].
  apply Z.eqb_neq in HF. now rewrite HF.
Qed.

Lemma I_FPSTimeNS_First (w : world) :
  FirstFrameStartTime (snd (I_FPSTimeNS clock w)) = FirstFrameStartTime w.
Proof. unfold I_FPSTimeNS. now destruct (FreezeTime w =? 0). Qed.

Lemma step_First (w w' : world) (o : op) :
  FirstFrameStartTime w <> 0 -> o <> Freeze false ->
  step TICRATE clock w o w' ->
  FirstFrameStartTime w' = FirstFrameStartTime w.
Proof.
  intros HF Ho Hstep. destruct Hstep; try reflexivity.
  - now apply I_SetFrameTime_First.
  - unfold I_WaitVBL. now rewrite I_SetFrameTime_First.
  - eapply I_WaitForTic_First; eassumption.
  - now apply I_NSTime_First.
  - apply I_FPSTimeNS_First.
  - unfold I_MSTime. pose proof (I_NSTime_First w HF) as H.
    destruct (I_NSTime clock w). exact H.
  - unfold I_FPSTime. pose proof (I_FPSTimeNS_First w) as H.
    destruct (I_FPSTimeNS clock w). exact H.
  - destruct frozen; [reflexivity | congruence].
Qed.

Lemma I_WaitForTic_frozen_same (fuel : nat) (prevtic t : Z) (w w' : world) :
  FreezeTime w <> 0 ->
  I_WaitForTic TICRATE clock fuel prevtic w = Some (t, w') -> w' = w.
Proof.
  intros Hz Hrun. destruct (Z_le_gt_dec (I_GetTime TICRATE w) prevtic) as [Hle|Hgt].
  - rewrite I_WaitForTic_frozen_None in Hrun by assumption. discriminate.
  - destruct fuel as [|fuel]; [discriminate|]. simpl in Hrun.
    destruct (I_GetTime TICRATE w <=? prevtic) eqn:E;
      [apply Z.leb_le in E; lia|].
    now injection Hrun as _ <-.
Qed.

Lemma step_frozen (w w' : world) (o : op) :
  FreezeTime w <> 0 -> FirstFrameStartTime w <> 0 ->
  (forall b, o <> Freeze b) ->
  step TICRATE clock w o w' ->
  timer_vars w' = timer_vars w.
Proof.
  intros Hz HF Ho Hstep. destruct Hstep; try reflexivity.
  - now rewrite I_SetFrameTime_frozen.
  - unfold I_WaitVBL. now rewrite I_SetFrameTime_frozen.
  - now rewrite (I_WaitForTic_frozen_same _ _ _ _ _ Hz H).
  - unfold I_NSTime. apply Z.eqb_neq in Hz, HF. now rewrite Hz, HF.
  - unfold I_FPSTimeNS. apply Z.eqb_neq in Hz. now rewrite Hz.
  - unfold I_MSTime, I_NSTime. apply Z.eqb_neq in Hz, HF. now rewrite Hz, HF.
  - unfold I_FPSTime, I_FPSTimeNS. apply Z.eqb_neq in Hz. now rewrite Hz.
  - now destruct (Ho frozen).
Qed.

End Frames.

(** X6: between two snapshots, with time running, the queries ([I_NSTime],
    [I_FPSTimeNS], [I_MSTime], [I_FPSTime], [I_GetTime], [I_GetTimeFrac]),
    in any number and order, leave the whole state as it is and read no
    clock, so each of them keeps returning the same time. *)
Theorem X6_queries_stable_within_frame
    (TICRATE : Z) (clock : nat -> Z) (os : list op) (w w' : world) :
  FreezeTime w = 0 ->
  forallb is_query os = true ->
  steps TICRATE clock w os w' ->
  w' = w.
Proof.
  intros Hz Hq Hsteps. induction Hsteps as [w|w o w1 os w2 Hstep Hsteps IH].
  - reflexivity.
  - simpl in Hq. apply andb_true_iff in Hq. destruct Hq as [Hq1 Hq2].
    pose proof (query_unfrozen TICRATE clock w w1 o Hz Hq1 Hstep) as E.
    subst w1. now apply IH.
Qed.

Lemma X6_queries_stable_within_frame_witness :
  let clock := clock_of_list [1000; 2000] in
  let w := snapshots clock 2 initial in
  snd (I_FPSTime clock (snd (I_MSTime clock w))) = w.
Proof.
  intros clock w.
  apply (X6_queries_stable_within_frame TICRATE_doom clock [MSTime; GetTime; FPSTime] w).
  - reflexivity.
  - reflexivity.
  - eapply steps_cons; [apply step_MSTime|].
    eapply steps_cons; [apply step_GetTime|].
    eapply steps_cons; [apply step_FPSTime|]. apply steps_nil.
Defined.

(** X7: once FirstFrameStartTime is set, no sequence of calls changes it,
    as long as none of them is [I_FreezeTime(false)]. *)
Theorem X7_first_frame_set_once
    (TICRATE : Z) (clock : nat -> Z) (os : list op) (w w' : world) :
  FirstFrameStartTime w <> 0 ->
  ~ In (Freeze false) os ->
  steps TICRATE clock w os w' ->
  FirstFrameStartTime w' = FirstFrameStartTime w.
Proof.
  intros HF Hin Hsteps. induction Hsteps as [w|w o w1 os w2 Hstep Hsteps IH].
  - reflexivity.
  - assert (E : FirstFrameStartTime w1 = FirstFrameStartTime w).
    { apply (step_First TICRATE clock w w1 o HF); [|exact Hstep].
      intros ->. apply Hin. now left. }
    rewrite <- E. apply IH; [congruence|].
    intros H. apply Hin. now right.
Qed.

Lemma X7_first_frame_set_once_witness :
  let clock := clock_of_list [1000; 2000; 3000; 4000] in
  let w := snapshots clock 1 initial in
  FirstFrameStartTime
    (I_SetFrameTime clock (I_FreezeTime clock true (I_SetFrameTime clock w))) = 1000.
Proof.
  intros clock w.
  apply (X7_first_frame_set_once TICRATE_doom clock
           [SetFrameTime; Freeze true; SetFrameTime] w).
  - vm_compute. discriminate.
  - simpl. intros [H|[H|[H|[]]]]; discriminate.
  - repeat (eapply steps_cons; [constructor|]). apply steps_nil.
Defined.

(** X8: while time is frozen and the first frame is set, no sequence of
    calls other than [I_FreezeTime] changes any of the three timer
    variables: the tic and the tic fraction stay where they were. *)
Theorem X8_frozen_time_is_pinned
    (TICRATE : Z) (clock : nat -> Z) (os : list op) (w w' : world) :
  FreezeTime w <> 0 ->
  FirstFrameStartTime w <> 0 ->
  (forall b, ~ In (Freeze b) os) ->
  steps TICRATE clock w os w' ->
  timer_vars w' = timer_vars w /\
  I_GetTime TICRATE w' = I_GetTime TICRATE w /\
  (forall ms, I_GetTimeFrac TICRATE ms w' = I_GetTimeFrac TICRATE ms w).
Proof.
  intros Hz HF Hin Hsteps.
  assert (E : timer_vars w' = timer_vars w).
  { induction Hsteps as [w|w o w1 os w2 Hstep Hsteps IH]; [reflexivity|].
    assert (E1 : timer_vars w1 = timer_vars w).
    { apply (step_frozen TICRATE clock w w1 o Hz HF); [|exact Hstep].
      intros b ->. apply (Hin b). now left. }
    rewrite <- E1. unfold timer_vars in E1. injection E1 as E1 E2 E3.
    apply IH; try congruence.
    intros b H. apply (Hin b). now right. }
  split; [exact E|].
  unfold timer_vars in E. injection E as E1 E2 E3.
  split.
  - unfold I_GetTime. now rewrite E1, E2.
  - intros ms. unfold I_GetTimeFrac. now rewrite E1, E2.
Qed.

Lemma X8_frozen_time_is_pinned_witness :
  let clock := clock_of_list [1000; 2000; 3000; 900000000; 1900000000] in
  let w := I_FreezeTime clock true (snapshots clock 2 initial) in
  I_GetTime TICRATE_doom (I_SetFrameTime clock (snd (I_MSTime clock w)))
  = I_GetTime TICRATE_doom w.
Proof.
  intros clock w.
  refine (proj1 (proj2 (X8_frozen_time_is_pinned TICRATE_doom clock
                          [MSTime; SetFrameTime] w _ _ _ _ _))).
  - vm_compute. discriminate.
  - vm_compute. discriminate.
  - intros b. simpl. intros [H|[H|[]]]; discriminate.
  - eapply steps_cons; [apply step_MSTime|].
    eapply steps_cons; [apply step_SetFrameTime|]. apply steps_nil.
Defined.

(** ** Freezing, again *)

Lemma I_FreezeTime_false_state (clock : nat -> Z) (w : world) :
  0 <= FirstFrameStartTime w ->
  0 <= FreezeTime w <= clock (reads w) ->
  clock (reads w) < 2 ^ 64 ->
  0 <= clock (S (reads w)) < 2 ^ 64 ->
  FirstFrameStartTime w + (clock (reads w) - FreezeTime w) < 2 ^ 64 ->
  FirstFrameStartTime w + (clock (reads w) - FreezeTime w) <> 0 ->
  I_FreezeTime clock false w
  = mkWorld (FirstFrameStartTime w + (clock (reads w) - FreezeTime w))
            (clock (S (reads w))) 0 (S (S (reads w))) (sleeps w).
Proof.
  intros HF HZ Ht Ht' Hsum Hne.
  rewrite I_FreezeTime_false.
  rewrite (to_uint64_small (clock (reads w))) by lia.
  rewrite (to_uint64_small (clock (reads w) - FreezeTime w)) by lia.
  rewrite to_uint64_small by lia.
  rewrite I_SetFrameTime_unfrozen by reflexivity.
  cbn [FirstFrameStartTime reads sleeps].
  rewrite to_uint64_small by exact Ht'.
  apply Z.eqb_neq in Hne. now rewrite Hne.
Qed.

(** X9: while time is frozen (first frame set), [I_NSTime] follows the live
    clock: two calls in a row differ by what the clock advanced between
    them, although the timer variables, and with them the tic, do not
    move. *)
Theorem X9_I_NSTime_runs_while_frozen (TICRATE : Z) (clock : nat -> Z) (w : world) :
  FreezeTime w <> 0 ->
  0 < FirstFrameStartTime w <= clock (reads w) ->
  clock (reads w) <= clock (S (reads w)) < 2 ^ 64 ->
  let w1 := snd (I_NSTime clock w) in
  let w2 := snd (I_NSTime clock w1) in
  fst (I_NSTime clock w) = clock (reads w) - FirstFrameStartTime w /\
  fst (I_NSTime clock w1) - fst (I_NSTime clock w)
  = clock (S (reads w)) - clock (reads w) /\
  timer_vars w2 = timer_vars w /\
  I_GetTime TICRATE w2 = I_GetTime TICRATE w.
Proof.
  intros Hz HF Ht w1 w2.
  assert (HF0 : FirstFrameStartTime w <> 0) by lia.
  assert (E1 : I_NSTime clock w
               = (clock (reads w) - FirstFrameStartTime w,
                  mkWorld (FirstFrameStartTime w) (CurrentFrameStartTime w)
                          (FreezeTime w) (S (reads w)) (sleeps w))).
  { unfold I_NSTime, GetClockTimeNS.
    apply Z.eqb_neq in Hz, HF0. rewrite Hz, HF0.
    cbn [FirstFrameStartTime].
    rewrite (to_uint64_small (clock (reads w))) by lia.
    now rewrite to_uint64_small by lia. }
  assert (E2 : I_NSTime clock w1
               = (clock (S (reads w)) - FirstFrameStartTime w,
                  mkWorld (FirstFrameStartTime w) (CurrentFrameStartTime w)
                          (FreezeTime w) (S (S (reads w))) (sleeps w))).
  { unfold w1. rewrite E1. cbn [snd].
    unfold I_NSTime, GetClockTimeNS.
    cbn [FirstFrameStartTime CurrentFrameStartTime FreezeTime reads sleeps].
    apply Z.eqb_neq in Hz, HF0. rewrite Hz, HF0.
    rewrite (to_uint64_small (clock (S (reads w)))) by lia.
    now rewrite to_uint64_small by lia. }
  unfold w2. rewrite E2, E1. cbn [fst snd].
  split; [reflexivity|]. split; [lia|]. split; reflexivity.
Qed.

Lemma X9_I_NSTime_runs_while_frozen_witness :
  let clock := clock_of_list [1000; 2000; 3000; 4000; 9000] in
  let w := I_FreezeTime clock true (snapshots clock 2 initial) in
  fst (I_NSTime clock (snd (I_NSTime clock w))) - fst (I_NSTime clock w) = 9000 - 4000.
Proof.
  intros clock w.
  refine (proj1 (proj2 (X9_I_NSTime_runs_while_frozen TICRATE_doom clock w _ _ _))).
  - vm_compute. discriminate.
  - vm_compute. split; [reflexivity | discriminate].
  - vm_compute. split; [discriminate | reflexivity].
Defined.

(** X10: a second [I_FreezeTime(true)] overwrites FreezeTime, so the
    unfreeze takes out only the time since the second freeze: the time
    between the two freezes stays in [I_NSTime]. *)
Theorem X10_double_freeze (clock : nat -> Z) (w0 : world) :
  let t1 := clock (reads w0) in
  let t1' := clock (S (reads w0)) in
  let t2 := clock (S (S (reads w0))) in
  let t3 := clock (S (S (S (reads w0)))) in
  FreezeTime w0 = 0 ->
  0 < FirstFrameStartTime w0 <= CurrentFrameStartTime w0 ->
  CurrentFrameStartTime w0 <= t1 ->
  0 <= t1 <= t1' -> t1' <= t2 -> t2 <= t3 < 2 ^ 64 ->
  let w := I_FreezeTime clock true (I_FreezeTime clock true w0) in
  let w' := I_FreezeTime clock false w in
  FreezeTime w = t1' /\
  fst (I_NSTime clock w')
  = fst (I_NSTime clock w0) + (t1' - CurrentFrameStartTime w0) + (t3 - t2) /\
  fst (I_NSTime clock w0) + (t1' - t1) <= fst (I_NSTime clock w').
Proof.
  intros t1 t1' t2 t3 Hz HFC HC H1 H2 H3 w w'.
  assert (Ew : w = mkWorld (FirstFrameStartTime w0) (CurrentFrameStartTime w0) t1'
                           (S (S (reads w0))) (sleeps w0)).
  { unfold w. rewrite !I_FreezeTime_true.
    cbn [FirstFrameStartTime CurrentFrameStartTime reads sleeps].
    fold t1'. now rewrite (to_uint64_small t1') by lia. }
  assert (Ew' : w' = mkWorld (FirstFrameStartTime w0 + (t2 - t1')) t3 0
                             (S (S (S (S (reads w0))))) (sleeps w0)).
  { unfold w'. rewrite Ew.
    rewrite I_FreezeTime_false_state;
      cbn [FirstFrameStartTime CurrentFrameStartTime FreezeTime reads sleeps];
      fold t2 t3; try lia.
    reflexivity. }
  rewrite Ew'. rewrite Ew. cbn [FreezeTime].
  assert (Eb : fst (I_NSTime clock w0)
               = CurrentFrameStartTime w0 - FirstFrameStartTime w0).
  { unfold I_NSTime. rewrite Hz. simpl. apply to_uint64_small. lia. }
  assert (Ea : fst (I_NSTime clock
                      (mkWorld (FirstFrameStartTime w0 + (t2 - t1')) t3 0
                               (S (S (S (S (reads w0))))) (sleeps w0)))
               = t3 - (FirstFrameStartTime w0 + (t2 - t1'))).
  { unfold I_NSTime. simpl. apply to_uint64_small. lia. }
  rewrite Ea, Eb. split; [reflexivity|]. split; lia.
Qed.

Lemma X10_double_freeze_witness :
  let clock := clock_of_list [1000; 2000; 2000; 5000; 9000; 9000] in
  let w0 := snapshots clock 2 initial in
  let w := I_FreezeTime clock true (I_FreezeTime clock true w0) in
  fst (I_NSTime clock (I_FreezeTime clock false w)) = fst (I_NSTime clock w0) + 3000.
Proof.
  intros clock w0 w.
  assert (G : fst (I_NSTime clock (I_FreezeTime clock false w))
              = fst (I_NSTime clock w0)
                + (clock (S (reads w0)) - CurrentFrameStartTime w0)
                + (clock (S (S (S (reads w0)))) - clock (S (S (reads w0))))).
  { refine (proj1 (proj2 (X10_double_freeze clock w0 _ _ _ _ _ _)));
      vm_compute; try reflexivity; try discriminate;
      split; try reflexivity; discriminate. }
  rewrite G. vm_compute. reflexivity.
Defined.

(** ** Delays and first frames *)

(** X11: for a count whose product by 1000 fits [int], [I_WaitVBL] sleeps
    once, for 1000 * count / 70 ms rounded towards zero (a duration that is
    not positive when the count is not), and then leaves the timer as a
    plain [I_SetFrameTime] would. *)
Theorem X11_I_WaitVBL (clock : nat -> Z) (count : Z) (w : world) :
  - 2147483 <= count <= 2147483 ->
  let w' := I_WaitVBL clock count w in
  sleeps w' = Z.quot (1000 * count) 70 :: sleeps w /\
  same_timer w' (I_SetFrameTime clock w) /\
  (0 <= count ->
   Z.quot (1000 * count) 70 = 1000 * count / 70 /\
   70 * Z.quot (1000 * count) 70 <= 1000 * count < 70 * Z.quot (1000 * count) 70 + 70) /\
  (count <= 0 -> Z.quot (1000 * count) 70 <= 0).
Proof.
  intros Hc w'. unfold w', I_WaitVBL.
  rewrite (to_int_small (1000 * count)) by (zconst; lia).
  destruct (I_SetFrameTime_keeps clock (sleep_for (Z.quot (1000 * count) 70) w))
    as (_ & Hs & _).
  split; [rewrite Hs; reflexivity|].
  split; [apply same_timer_I_SetFrameTime, same_timer_sleep_for|].
  split.
  - intros H0. rewrite Z.quot_div_nonneg by lia. split; [reflexivity|].
    split; [apply Z.mul_div_le; lia|].
    pose proof (Z.mul_succ_div_gt (1000 * count) 70). lia.
  - intros H0. rewrite <- (Z.opp_involutive (1000 * count)).
    rewrite Z.quot_opp_l by lia.
    assert (0 <= Z.quot (- (1000 * count)) 70) by (apply Z.quot_pos; lia).
    lia.
Qed.

Lemma X11_I_WaitVBL_witness :
  let clock := clock_of_list [1000; 2000] in
  sleeps (I_WaitVBL clock 70 (snapshots clock 1 initial)) = [1000].
Proof.
  intros clock.
  refine (proj1 (X11_I_WaitVBL clock 70 (snapshots clock 1 initial) _)).
  split; discriminate.
Defined.

(** X12: the snapshot that sets the first frame (time running, first frame
    unset, a non-zero reading) makes the first and the current frame that
    reading; right after it the elapsed time is 0, the tic is 1, and the tic
    fraction is 0 out of floor(10^9 / TICRATE). *)
Theorem X12_first_snapshot (TICRATE : Z) (clock : nat -> Z) (ms : bool) (w : world) :
  0 < TICRATE <= 1000000000 ->
  FreezeTime w = 0 ->
  FirstFrameStartTime w = 0 ->
  0 < clock (reads w) < 2 ^ 64 ->
  let w1 := I_SetFrameTime clock w in
  FirstFrameStartTime w1 = clock (reads w) /\
  CurrentFrameStartTime w1 = clock (reads w) /\
  I_NSTime clock w1 = (0, w1) /\
  I_GetTime TICRATE w1 = 1 /\
  frac_num (I_GetTimeFrac TICRATE ms w1) = 0 /\
  frac_den (I_GetTimeFrac TICRATE ms w1) = 1000000000 / TICRATE.
Proof.
  intros HT Hz HF Ht w1.
  assert (E : w1 = mkWorld (clock (reads w)) (clock (reads w)) 0
                           (S (reads w)) (sleeps w)).
  { unfold w1. rewrite I_SetFrameTime_unfrozen by exact Hz.
    rewrite HF. simpl. now rewrite to_uint64_small by lia. }
  assert (Hop : I_GetTimeFrac TICRATE ms w1
                = mkTimefrac (0 - 0 * 1000000000 / TICRATE)
                             ((0 + 1) * 1000000000 / TICRATE - 0 * 1000000000 / TICRATE)
                             (if ms then Some (0 + 1) else None)).
  { pose proof (I_GetTimeFrac_operands TICRATE ms w1 HT) as H.
    rewrite E in H |- *. cbn [FirstFrameStartTime CurrentFrameStartTime] in H.
    rewrite Z.sub_diag in H. simpl in H. apply H.
    - lia.
    - lia.
    - split; [lia | zconst; lia]. }
  rewrite Hop. rewrite E.
  cbn [FirstFrameStartTime CurrentFrameStartTime frac_num frac_den].
  split; [reflexivity|]. split; [reflexivity|]. split.
  - unfold I_NSTime. simpl. now rewrite Z.sub_diag.
  - split; [now apply I_GetTime_zero_elapsed|].
    split; [reflexivity|]. simpl. rewrite Z.sub_0_r. reflexivity.
Qed.

Lemma X12_first_snapshot_witness :
  let clock := clock_of_list [123456789] in
  let w1 := I_SetFrameTime clock initial in
  I_GetTime TICRATE_doom w1 = 1 /\
  frac_den (I_GetTimeFrac TICRATE_doom false w1) = 1000000000 / 35.
Proof.
  intros clock w1.
  destruct (X12_first_snapshot TICRATE_doom clock false initial)
    as (_ & _ & _ & Ht & _ & Hd).
  - split; [reflexivity | discriminate].
  - reflexivity.
  - reflexivity.
  - split; reflexivity.
  - split; [exact Ht | exact Hd].
Defined.

(** X13: a clock reading of 0 cannot be told from "unset": a snapshot that
    reads 0 while the first frame is unset leaves it unset, and an
    [I_FreezeTime(true)] that reads 0 does not freeze, so the next
    [I_SetFrameTime] still stores a new reading. *)
Theorem X13_zero_reading_is_unset (clock : nat -> Z) (w : world) :
  FreezeTime w = 0 ->
  clock (reads w) = 0 ->
  (FirstFrameStartTime w = 0 ->
   FirstFrameStartTime (I_SetFrameTime clock w) = 0 /\
   CurrentFrameStartTime (I_SetFrameTime clock w) = 0) /\
  FreezeTime (I_FreezeTime clock true w) = 0 /\
  CurrentFrameStartTime (I_SetFrameTime clock (I_FreezeTime clock true w))
  = to_uint64 (clock (S (reads w))).
Proof.
  intros Hz Ht. split; [|split].
  - intros HF. rewrite I_SetFrameTime_unfrozen by exact Hz.
    rewrite HF, Ht. split; reflexivity.
  - rewrite I_FreezeTime_true, Ht. reflexivity.
  - rewrite I_FreezeTime_true, Ht.
    rewrite I_SetFrameTime_unfrozen by reflexivity. reflexivity.
Qed.

Lemma X13_zero_reading_is_unset_witness :
  let clock := clock_of_list [0; 7000] in
  FreezeTime (I_FreezeTime clock true initial) = 0 /\
  CurrentFrameStartTime (I_SetFrameTime clock (I_FreezeTime clock true initial)) = 7000.
Proof.
  intros clock.
  destruct (X13_zero_reading_is_unset clock initial eq_refl eq_refl) as (_ & H1 & H2).
  split; [exact H1 | exact H2].
Defined.

(** ** Tics and their lengths *)

Lemma div_add_bounds (a b c : Z) :
  0 < c -> a / c + b / c <= (a + b) / c <= a / c + b / c + 1.
Proof.
  intros Hc.
  pose proof (Z.mul_div_le a c Hc). pose proof (Z.mul_succ_div_gt a c Hc).
  pose proof (Z.mul_div_le b c Hc). pose proof (Z.mul_succ_div_gt b c Hc).
  split.
  - apply Z.div_le_lower_bound; lia.
  - assert ((a + b) / c < a / c + b / c + 2); [|lia].
    apply Z.div_lt_upper_bound; lia.
Qed.

(** X14: within the [int] range of the tic, the numerator of
    [I_GetTimeFrac] is what the current frame is past the start of its tic
    (first frame + TicToNS (tic - 1) + numerator = current frame), and the
    denominator, the length of the tic in nanoseconds, is floor(10^9 /
    TICRATE) or one more. *)
Theorem X14_I_GetTimeFrac_parts (TICRATE : Z) (ms : bool) (w : world) :
  0 < TICRATE <= 1000000000 ->
  0 <= FirstFrameStartTime w <= CurrentFrameStartTime w ->
  CurrentFrameStartTime w < 2 ^ 64 ->
  tic_in_range TICRATE (CurrentFrameStartTime w - FirstFrameStartTime w) ->
  let r := I_GetTimeFrac TICRATE ms w in
  FirstFrameStartTime w + TicToNS TICRATE (I_GetTime TICRATE w - 1) + frac_num r
  = CurrentFrameStartTime w /\
  1000000000 / TICRATE <= frac_den r <= 1000000000 / TICRATE + 1.
Proof.
  intros HT HFC HC Hr r.
  assert (HT' : 0 < TICRATE < 2 ^ 64) by (zconst; lia).
  unfold r. rewrite I_GetTimeFrac_operands by assumption.
  rewrite I_GetTime_exact by assumption.
  set (e := CurrentFrameStartTime w - FirstFrameStartTime w) in *.
  set (tic := e * TICRATE / 1000000000).
  destruct (NSToTic_exact TICRATE e HT' Hr) as [Etic Htic].
  fold tic in Etic. rewrite Etic in Htic.
  replace (tic + 1 - 1) with tic by lia.
  rewrite TicToNS_exact by (zconst; lia).
  cbn [frac_num frac_den]. split; [unfold e; lia|].
  replace ((tic + 1) * 1000000000) with (tic * 1000000000 + 1000000000) by lia.
  pose proof (div_add_bounds (tic * 1000000000) 1000000000 TICRATE ltac:(lia)).
  lia.
Qed.

Lemma X14_I_GetTimeFrac_parts_witness :
  let w := snapshots (clock_of_list [1000; 40001000]) 2 initial in
  let r := I_GetTimeFrac TICRATE_doom false w in
  FirstFrameStartTime w + TicToNS TICRATE_doom (I_GetTime TICRATE_doom w - 1) + frac_num r
  = CurrentFrameStartTime w /\
  1000000000 / TICRATE_doom <= frac_den r <= 1000000000 / TICRATE_doom + 1.
Proof.
  intros w r.
  apply (X14_I_GetTimeFrac_parts TICRATE_doom false w).
  - split; [reflexivity | discriminate].
  - vm_compute. split; discriminate.
  - vm_compute. reflexivity.
  - vm_compute. split; [discriminate | reflexivity].
Defined.

(** X15: with time running and the first frame set, a snapshot taken d
    nanoseconds after the previous one moves the tic forward by
    floor(d * TICRATE / 10^9) or one more, never back; so snapshots less
    than a tic apart never skip a tic. *)
Theorem X15_tic_advance (TICRATE : Z) (clock : nat -> Z) (w : world) :
  0 < TICRATE < 2 ^ 64 ->
  FreezeTime w = 0 ->
  0 < FirstFrameStartTime w <= CurrentFrameStartTime w ->
  CurrentFrameStartTime w <= clock (reads w) < 2 ^ 64 ->
  tic_in_range TICRATE (clock (reads w) - FirstFrameStartTime w) ->
  let d := clock (reads w) - CurrentFrameStartTime w in
  let w1 := I_SetFrameTime clock w in
  I_GetTime TICRATE w + d * TICRATE / 1000000000
    <= I_GetTime TICRATE w1
    <= I_GetTime TICRATE w + d * TICRATE / 1000000000 + 1 /\
  (d * TICRATE < 1000000000 ->
   I_GetTime TICRATE w <= I_GetTime TICRATE w1 <= I_GetTime TICRATE w + 1).
Proof.
  intros HT Hz HFC Ht Hr d w1.
  assert (E : w1 = mkWorld (FirstFrameStartTime w) (clock (reads w)) 0
                           (S (reads w)) (sleeps w)).
  { unfold w1. rewrite I_SetFrameTime_unfrozen by exact Hz.
    rewrite to_uint64_small by lia.
    assert (HF : FirstFrameStartTime w <> 0) by lia.
    apply Z.eqb_neq in HF. now rewrite HF. }
  assert (Hr0 : tic_in_range TICRATE (CurrentFrameStartTime w - FirstFrameStartTime w)).
  { apply (tic_in_range_le TICRATE _ (clock (reads w) - FirstFrameStartTime w));
      [lia | lia | exact Hr]. }
  rewrite (I_GetTime_exact TICRATE w) by (try assumption; lia).
  clearbody w1. subst w1.
  rewrite I_GetTime_exact
    by (cbn [FirstFrameStartTime CurrentFrameStartTime]; try assumption; lia).
  cbn [FirstFrameStartTime CurrentFrameStartTime].
  replace ((clock (reads w) - FirstFrameStartTime w) * TICRATE)
    with ((CurrentFrameStartTime w - FirstFrameStartTime w) * TICRATE + d * TICRATE)
    by (unfold d; lia).
  pose proof (div_add_bounds ((CurrentFrameStartTime w - FirstFrameStartTime w) * TICRATE)
                             (d * TICRATE) 1000000000 ltac:(lia)) as Hb.
  split; [lia|].
  intros Hd.
  assert (Hd0 : d * TICRATE / 1000000000 = 0).
  { apply Z.div_small. unfold d. split; [|exact Hd]. nia. }
  lia.
Qed.

Lemma X15_tic_advance_witness :
  let clock := clock_of_list [1000; 20001000; 40001000] in
  let w := snapshots clock 2 initial in
  I_GetTime TICRATE_doom w <= I_GetTime TICRATE_doom (I_SetFrameTime clock w)
    <= I_GetTime TICRATE_doom w + 1.
Proof.
  intros clock w.
  refine (proj2 (X15_tic_advance TICRATE_doom clock w _ _ _ _ _) _).
  - split; reflexivity.
  - reflexivity.
  - vm_compute. split; [reflexivity | discriminate].
  - vm_compute. split; [discriminate | reflexivity].
  - vm_compute. split; [discriminate | reflexivity].
  - vm_compute. reflexivity.
Defined.

(** X16: with time running, the difference of [I_FPSTimeNS] across two
    successive snapshots is what the clock advanced between them, whatever
    FirstFrameStartTime is. *)
Theorem X16_I_FPSTimeNS_frame_delta (clock : nat -> Z) (w : world) :
  FreezeTime w = 0 ->
  0 <= clock (reads w) < 2 ^ 64 ->
  0 <= clock (S (reads w)) < 2 ^ 64 ->
  let w1 := I_SetFrameTime clock w in
  let w2 := I_SetFrameTime clock w1 in
  I_FPSTimeNS clock w1 = (clock (reads w), w1) /\
  I_FPSTimeNS clock w2 = (clock (S (reads w)), w2) /\
  fst (I_FPSTimeNS clock w2) - fst (I_FPSTimeNS clock w1)
  = clock (S (reads w)) - clock (reads w).
Proof.
  intros Hz Ht Ht' w1 w2.
  assert (Z1 : FreezeTime w1 = 0)
    by (unfold w1; rewrite I_SetFrameTime_unfrozen by exact Hz; reflexivity).
  assert (R1 : reads w1 = S (reads w))
    by (unfold w1; rewrite I_SetFrameTime_unfrozen by exact Hz; reflexivity).
  assert (C1 : CurrentFrameStartTime w1 = clock (reads w)).
  { unfold w1. rewrite I_SetFrameTime_unfrozen by exact Hz.
    cbn [CurrentFrameStartTime]. now apply to_uint64_small. }
  assert (Z2 : FreezeTime w2 = 0)
    by (unfold w2; rewrite I_SetFrameTime_unfrozen by exact Z1; reflexivity).
  assert (C2 : CurrentFrameStartTime w2 = clock (S (reads w))).
  { unfold w2. rewrite I_SetFrameTime_unfrozen by exact Z1.
    cbn [CurrentFrameStartTime]. rewrite R1. now apply to_uint64_small. }
  assert (E1 : I_FPSTimeNS clock w1 = (clock (reads w), w1))
    by (unfold I_FPSTimeNS; rewrite Z1, C1; reflexivity).
  assert (E2 : I_FPSTimeNS clock w2 = (clock (S (reads w)), w2))
    by (unfold I_FPSTimeNS; rewrite Z2, C2; reflexivity).
  rewrite E1, E2. cbn [fst]. repeat split.
Qed.

Lemma X16_I_FPSTimeNS_frame_delta_witness :
  let clock := clock_of_list [5000; 21000000] in
  fst (I_FPSTimeNS clock (snapshots clock 2 initial))
  - fst (I_FPSTimeNS clock (snapshots clock 1 initial)) = 21000000 - 5000.
Proof.
  intros clock.
  refine (proj2 (proj2 (X16_I_FPSTimeNS_frame_delta clock initial _ _ _))).
  - reflexivity.
  - split; [discriminate | reflexivity].
  - split; [discriminate | reflexivity].
Defined.

(** ** Elapsed time across snapshots *)

Lemma I_NSTime_after_snapshot (clock : nat -> Z) (w : world) :
  clock_monotone clock -> clock_in_range clock ->
  frames_consistent clock w -> FreezeTime w = 0 ->
  fst (I_NSTime clock w) <= fst (I_NSTime clock (I_SetFrameTime clock w)) /\
  frames_consistent clock (I_SetFrameTime clock w) /\
  FreezeTime (I_SetFrameTime clock w) = 0.
Proof.
  intros Hm Hr (HFC & HC & H0) Hz.
  pose proof (Hr (reads w)) as Ht.
  pose proof (Hm (reads w) (S (reads w)) ltac:(lia)) as Hn.
  split; [|split].
  - rewrite I_SetFrameTime_unfrozen by exact Hz.
    rewrite to_uint64_small by exact Ht.
    unfold I_NSTime. rewrite Hz. cbn [FreezeTime FirstFrameStartTime CurrentFrameStartTime].
    simpl. destruct (FirstFrameStartTime w =? 0) eqn:E.
    + apply Z.eqb_eq in E. rewrite (H0 E), E, !Z.sub_diag. reflexivity.
    + rewrite !to_uint64_small by lia. lia.
  - rewrite I_SetFrameTime_unfrozen by exact Hz.
    rewrite to_uint64_small by exact Ht.
    unfold frames_consistent. cbn [FirstFrameStartTime CurrentFrameStartTime reads].
    destruct (FirstFrameStartTime w =? 0) eqn:E.
    + apply Z.eqb_eq in E. lia.
    + apply Z.eqb_neq in E. lia.
  - rewrite I_SetFrameTime_unfrozen by exact Hz. reflexivity.
Qed.

(** X17: with time running and a clock that never goes back, the elapsed
    time [I_NSTime] returns never decreases from one snapshot to the next,
    however long the run. *)
Theorem X17_elapsed_nondecreasing (clock : nat -> Z) (n : nat) (w : world) :
  clock_monotone clock ->
  clock_in_range clock ->
  frames_consistent clock w ->
  FreezeTime w = 0 ->
  fst (I_NSTime clock (snapshots clock n w))
  <= fst (I_NSTime clock (snapshots clock (S n) w)).
Proof.
  intros Hm Hr. revert w. induction n as [|n IH]; intros w Hc Hz.
  - simpl. now apply I_NSTime_after_snapshot.
  - destruct (I_NSTime_after_snapshot clock w Hm Hr Hc Hz) as (_ & Hc1 & Hz1).
    change (snapshots clock (S (S n)) w)
      with (snapshots clock (S n) (I_SetFrameTime clock w)).
    change (snapshots clock (S n) w)
      with (snapshots clock n (I_SetFrameTime clock w)).
    now apply IH.
Qed.

Lemma X17_elapsed_nondecreasing_witness :
  let clock := clock_of_list [1; 5; 61356675657142859; 70000000000000000] in
  fst (I_NSTime clock (snapshots clock 3 initial))
  <= fst (I_NSTime clock (snapshots clock 4 initial)).
Proof.
  intros clock.
  apply (X17_elapsed_nondecreasing clock 3 initial).
  - apply clock_of_list_monotone. repeat constructor; lia.
  - apply clock_of_list_in_range. repeat constructor; zconst; lia.
  - unfold frames_consistent, clock. simpl. lia.
  - reflexivity.
Defined.
